(** * Query telemetry: sampling gate, key builder, store manager, metrics

    A shallow embedding of [src/mongo/db/query/telemetry.cpp].  Functions of
    that file are translated one by one and keep their names.  The
    collaborators the file only calls (the document redaction pass, the rate
    limiter, the partitioned store, the metric aggregators, the
    shared/exclusive lock) are modelled from the specification and marked as
    such. *)

From Stdlib Require Import List String Ascii ZArith Bool Lia Arith.
From Stdlib Require Import Floats.SpecFloat.
Import ListNotations.

Local Open Scope string_scope.
Local Open Scope Z_scope.
Local Open Scope list_scope.

Set Implicit Arguments.
Set Warnings "-register-all".

(* ================================================================== *)
(** ** Exceptions and the result monad *)

(** Error codes raised by [uassert] in this file. [Location n] stands for a
    numbered assertion site such as 10065 ([BSONElement::Obj] on an element
    that is no document). *)
Inductive ErrorCodes : Type :=
| EncounteredFLEPayloadWhileRedacting
| Location (id : Z).

(** What a call can raise: a user assertion (thrown to the caller, which may
    catch it) or a tripwire assertion ([tassert]). *)
Inductive Exception : Type :=
| UserAssertion (code : ErrorCodes)
| TripwireAssertion (id : Z).

Inductive Result (A : Type) : Type :=
| Ok (a : A)
| Throw (e : Exception).

Arguments Ok {A} a.
Arguments Throw {A} e.

Definition bind {A B : Type} (c : Result A) (k : A -> Result B) : Result B :=
  match c with
  | Ok a => k a
  | Throw e => Throw e
  end.

Notation "x <- c ;; k" := (bind c (fun x => k))
  (at level 61, c at next level, right associativity).
Notation "c ;;; k" := (bind c (fun _ => k))
  (at level 61, right associativity).

(** [uassert(code, msg, cond)] raises [code] when [cond] is false. *)
Definition uassert (code : ErrorCodes) (cond : bool) : Result unit :=
  if cond then Ok tt else Throw (UserAssertion code).

(** Modelled from the spec: [tassert] is defined outside these sources; the
    spec (sections 4.3 and 7) describes the failed check as a fatal internal
    invariant violation that halts the process, so it is kept apart from the
    user assertions, which a caller can catch and recover from. *)
Definition tassert (id : Z) (cond : bool) : Result unit :=
  if cond then Ok tt else Throw (TripwireAssertion id).

(** Modelled from the spec: which failures a caller can recover from; the
    failed tripwire assertion is the fatal one (section 7). *)
Definition isRecoverable (e : Exception) : bool :=
  match e with
  | UserAssertion _ => true
  | TripwireAssertion _ => false
  end.

(** [try { body } catch (ExceptionFor<EncounteredFLEPayloadWhileRedacting>&)
    { handler }]: only that one code is caught. *)
Definition catchFLEPayload {A : Type} (body handler : Result A) : Result A :=
  match body with
  | Throw (UserAssertion EncounteredFLEPayloadWhileRedacting) => handler
  | r => r
  end.

(* ================================================================== *)
(** ** Documents *)

Module BSONType.
Inductive t : Type :=
| EOO | NumberInt | String | Object | Array | BinData | Bool | jstNULL.

Definition eqb (a b : t) : bool :=
  match a, b with
  | EOO, EOO | NumberInt, NumberInt | String, String | Object, Object
  | Array, Array | BinData, BinData | Bool, Bool | jstNULL, jstNULL => true
  | _, _ => false
  end.
End BSONType.

Module BinDataType.
Inductive t : Type :=
| BinDataGeneral | Function | ByteArrayDeprecated | bdtUUID | newUUID
| MD5Type | Encrypt | Column | bdtCustom.

Definition eqb (a b : t) : bool :=
  match a, b with
  | BinDataGeneral, BinDataGeneral | Function, Function
  | ByteArrayDeprecated, ByteArrayDeprecated | bdtUUID, bdtUUID
  | newUUID, newUUID | MD5Type, MD5Type | Encrypt, Encrypt
  | Column, Column | bdtCustom, bdtCustom => true
  | _, _ => false
  end.
End BinDataType.

(** A document is the ordered sequence of its elements; an element is a field
    name with a value.  Arrays are documents too (BSON keys them by index). *)
Inductive BSONValue : Type :=
| EooVal
| NumberVal (n : Z)
| StringVal (s : string)
| ObjectVal (o : list (string * BSONValue))
| ArrayVal (o : list (string * BSONValue))
| BinDataVal (subtype : BinDataType.t) (data : list Z)
| BoolVal (b : bool)
| NullVal.

Definition BSONElement : Type := (string * BSONValue)%type.
Definition BSONObj : Type := list BSONElement.

Definition fieldNameStringData (e : BSONElement) : string := fst e.
Definition value (e : BSONElement) : BSONValue := snd e.

Definition typeOf (v : BSONValue) : BSONType.t :=
  match v with
  | EooVal => BSONType.EOO
  | NumberVal _ => BSONType.NumberInt
  | StringVal _ => BSONType.String
  | ObjectVal _ => BSONType.Object
  | ArrayVal _ => BSONType.Array
  | BinDataVal _ _ => BSONType.BinData
  | BoolVal _ => BSONType.Bool
  | NullVal => BSONType.jstNULL
  end.

Definition type (e : BSONElement) : BSONType.t := typeOf (value e).

(** [BSONElement::valueStringData], read on string elements only. *)
Definition valueStringData (e : BSONElement) : string :=
  match value e with
  | StringVal s => s
  | _ => EmptyString
  end.

(** [BSONElement::isBinData(bdt)]. *)
Definition isBinData (e : BSONElement) (bdt : BinDataType.t) : bool :=
  match value e with
  | BinDataVal t _ => BinDataType.eqb t bdt
  | _ => false
  end.

(** [BSONElement::binData(len)]: the payload bytes; [len] is their number. *)
Definition binData (e : BSONElement) : list Z :=
  match value e with
  | BinDataVal _ d => d
  | _ => []
  end.

(** [BSONElement::isABSONObj]: an embedded document or an array. *)
Definition isABSONObj (e : BSONElement) : bool :=
  match value e with
  | ObjectVal _ | ArrayVal _ => true
  | _ => false
  end.

(** [BSONElement::Obj]: the embedded document, or user assertion 10065. *)
Definition Obj (e : BSONElement) : Result BSONObj :=
  match value e with
  | ObjectVal o | ArrayVal o => Ok o
  | _ => Throw (UserAssertion (Location 10065))
  end.

(** [BSONObj::firstElement]: the end-of-object element when empty. *)
Definition firstElement (o : BSONObj) : BSONElement :=
  match o with
  | [] => (EmptyString, EooVal)
  | e :: _ => e
  end.

Definition isEmpty (o : BSONObj) : bool :=
  match o with
  | [] => true
  | _ :: _ => false
  end.

(** Structural induction through the element lists. *)
Section BSONValue_induction.
Variable P : BSONValue -> Prop.
Hypothesis HEoo : P EooVal.
Hypothesis HNumber : forall n, P (NumberVal n).
Hypothesis HString : forall s, P (StringVal s).
Hypothesis HObject : forall o, Forall (fun e => P (snd e)) o -> P (ObjectVal o).
Hypothesis HArray : forall o, Forall (fun e => P (snd e)) o -> P (ArrayVal o).
Hypothesis HBinData : forall t d, P (BinDataVal t d).
Hypothesis HBool : forall b, P (BoolVal b).
Hypothesis HNull : P NullVal.

Fixpoint BSONValue_induction (v : BSONValue) : P v :=
  let elems :=
    fix elems (o : list (string * BSONValue)) : Forall (fun e => P (snd e)) o :=
      match o with
      | [] => Forall_nil _
      | e :: tl => Forall_cons e (BSONValue_induction (snd e)) (elems tl)
      end in
  match v with
  | EooVal => HEoo
  | NumberVal n => HNumber n
  | StringVal s => HString s
  | ObjectVal o => HObject (elems o)
  | ArrayVal o => HArray (elems o)
  | BinDataVal t d => HBinData t d
  | BoolVal b => HBool b
  | NullVal => HNull
  end.
End BSONValue_induction.

Fixpoint bytes_eqb (a b : list Z) : bool :=
  match a, b with
  | [], [] => true
  | x :: a', y :: b' => (x =? y) && bytes_eqb a' b'
  | _, _ => false
  end.

(** Binary comparison of documents, as the store compares its keys. *)
Fixpoint BSONValue_eqb (a b : BSONValue) {struct a} : bool :=
  let elems_eqb :=
    fix elems_eqb (x y : list (string * BSONValue)) {struct x} : bool :=
      match x, y with
      | [], [] => true
      | e :: x', f :: y' =>
          String.eqb (fst e) (fst f) && BSONValue_eqb (snd e) (snd f)
          && elems_eqb x' y'
      | _, _ => false
      end in
  match a, b with
  | EooVal, EooVal => true
  | NumberVal n, NumberVal m => n =? m
  | StringVal s, StringVal t => String.eqb s t
  | ObjectVal x, ObjectVal y => elems_eqb x y
  | ArrayVal x, ArrayVal y => elems_eqb x y
  | BinDataVal t d, BinDataVal u e => BinDataType.eqb t u && bytes_eqb d e
  | BoolVal p, BoolVal q => Bool.eqb p q
  | NullVal, NullVal => true
  | _, _ => false
  end.

Definition BSONObj_eqb (a b : BSONObj) : bool :=
  BSONValue_eqb (ObjectVal a) (ObjectVal b).

(** The namespace of a command; [toString] is its [db.collection] form. *)
Record NamespaceString : Type := { ns : string }.

Definition toString (n : NamespaceString) : string := ns n.

(* ================================================================== *)
(** ** Declarations the file uses from elsewhere *)

(** Constants and helpers that [telemetry.cpp] takes from headers outside
    these sources.  Nothing is assumed about them. *)
Class Platform : Type := {
  (** [char(EncryptedBinDataType::kDeterministic)] *)
  kDeterministic : Z;
  (** [NamespaceString::isFLE2StateCollection] *)
  isFLE2StateCollection : NamespaceString -> bool;
  (** the hash that assigns a key to a partition of the store *)
  hashKey : BSONObj -> nat;
  (** the budget estimator: the bytes one store entry is charged *)
  entrySize : BSONObj -> N;
  (** [memory_util::MemorySize], [getRequestedMemSizeInBytes], [capMemorySize] *)
  MemorySize : Type;
  getRequestedMemSizeInBytes : MemorySize -> N;
  capMemorySize : N -> N -> N -> N
}.

(* ================================================================== *)
(** ** The redaction guard *)

Definition safeContentLabel : string := "__safeContent__".
Definition fieldpath : string := "$__safeContent__".
Definition internalFlePrefix : string := "$_internalFle".

(** [StringData::startsWith]. *)
Definition startsWith (s p : string) : bool := String.prefix p s.

(** The source introduces the guard with "Call this function from inside
    the redact() function on every BSONElement in the BSONObj"; no call of it
    is in these sources.  Each branch is a [uassert], which raises when its
    condition is false. *)
Definition throwIfEncounteringFLEPayload {P : Platform} (e : BSONElement)
  : Result unit :=
  if BSONType.eqb (type e) BSONType.Object then
    let fieldname := fieldNameStringData e in
    uassert EncounteredFLEPayloadWhileRedacting
      (String.eqb fieldname safeContentLabel
       || startsWith fieldname internalFlePrefix)
  else if BSONType.eqb (type e) BSONType.String then
    let val := valueStringData e in
    uassert EncounteredFLEPayloadWhileRedacting (String.eqb val fieldpath)
  else if BSONType.eqb (type e) BSONType.BinData
          && isBinData e BinDataType.Encrypt then
    let data := binData e in
    let len := Z.of_nat (List.length data) in
    uassert EncounteredFLEPayloadWhileRedacting
      ((1 <? len) && negb (nth 1 data 0 =? kDeterministic))
  else Ok tt.

Definition kRedactionDefaultMask : string := "###".

(** Modelled from the spec: [BSONObj::redact] is defined outside these
    sources.  Redaction replaces literal values with a placeholder while
    preserving structural shape (glossary): field names and the nesting of
    documents and arrays are kept, every other value becomes the mask.  The
    key builder calls [redact(false)], with the flag alone: the guard above
    is handed to no call and is called nowhere in these sources, so the pass
    runs no guard and raises nothing. *)
Fixpoint redactElement (name : string) (v : BSONValue) {struct v} : BSONElement :=
  let redactElements :=
    fix redactElements (o : list (string * BSONValue)) : BSONObj :=
      match o with
      | [] => []
      | e :: tl => redactElement (fst e) (snd e) :: redactElements tl
      end in
  match v with
  | ObjectVal o => (name, ObjectVal (redactElements o))
  | ArrayVal o => (name, ArrayVal (redactElements o))
  | _ => (name, StringVal kRedactionDefaultMask)
  end.

(** Modelled from the spec: [BSONObj::redact] on a whole document, element
    by element in document order. *)
Fixpoint redactElements (o : BSONObj) : BSONObj :=
  match o with
  | [] => []
  | e :: tl => redactElement (fst e) (snd e) :: redactElements tl
  end.

(** Modelled from the spec: [obj.redact(false)] as the key builder calls
    it. *)
Definition redact (o : BSONObj) : BSONObj := redactElements o.

(* ================================================================== *)
(** ** The sampling gate *)

(** Modelled from the spec: the [RateLimiting] class is defined outside these
    sources.  Section 4.1: the gate tracks, within a fixed time window, how
    many admission requests have already been granted; if the configured rate
    (requests per window) has not yet been reached it grants and increments
    the window counter, else it denies; windows roll over based on wall-clock
    time.  [clockNow] is the reading of the clock source, set by the
    environment. *)
Record RateLimiting : Type := {
  samplingRate : Z;
  timePeriod : Z;
  clockNow : Z;
  windowStart : Z;
  currentCount : Z
}.

(** Modelled from the spec: [RateLimiting::getSamplingRate], the configured
    number of samples per window. *)
Definition getSamplingRate (r : RateLimiting) : Z := samplingRate r.

(** Modelled from the spec: the window rolls over once its length has
    passed on the clock; the new window has granted nothing yet. *)
Definition rollWindow (r : RateLimiting) : RateLimiting :=
  if windowStart r + timePeriod r <=? clockNow r then
    {| samplingRate := samplingRate r; timePeriod := timePeriod r;
       clockNow := clockNow r; windowStart := clockNow r; currentCount := 0 |}
  else r.

(** Modelled from the spec: [RateLimiting::handleRequestSlidingWindow]
    grants and counts the request while the rate has not been reached in the
    current window, else denies. *)
Definition handleRequestSlidingWindow (r : RateLimiting) : bool * RateLimiting :=
  let w := rollWindow r in
  if currentCount w <? samplingRate w then
    (true,
     {| samplingRate := samplingRate w; timePeriod := timePeriod w;
        clockNow := clockNow w; windowStart := windowStart w;
        currentCount := currentCount w + 1 |})
  else (false, w).

(* ================================================================== *)
(** ** Metrics *)

(** Modelled from the spec: the aggregator type is declared in the telemetry
    header, outside these sources.  Section 3 names distribution aggregators
    holding count, min, max and sum; a new aggregate is zero-valued (section
    4.3), so the first observation sets both bounds. *)
Module AggregatedMetric.
(** Modelled from the spec: the aggregator of one metric. *)
Record t : Type := { count : Z; sum : Z; min : Z; max : Z }.

(** Modelled from the spec: the zero-valued aggregator of a new entry. *)
Definition zero : t := {| count := 0; sum := 0; min := 0; max := 0 |}.

(** Modelled from the spec: [aggregate(val)] counts the observation, adds it
    to the sum and folds it into the bounds. *)
Definition aggregate (val : Z) (m : t) : t :=
  {| count := count m + 1;
     sum := sum m + val;
     min := if count m =? 0 then val else Z.min (min m) val;
     max := if count m =? 0 then val else Z.max (max m) val |}.
End AggregatedMetric.

(** The fields [collectTelemetry] writes. *)
Record TelemetryMetrics : Type := {
  execCount : Z;
  lastExecutionMicros : Z;
  queryOptMicros : AggregatedMetric.t;
  queryExecMicros : AggregatedMetric.t;
  docsReturned : AggregatedMetric.t;
  docsScanned : AggregatedMetric.t;
  keysScanned : AggregatedMetric.t
}.

(** The default-constructed [TelemetryMetrics metrics;]. *)
Definition newTelemetryMetrics : TelemetryMetrics :=
  {| execCount := 0; lastExecutionMicros := 0;
     queryOptMicros := AggregatedMetric.zero;
     queryExecMicros := AggregatedMetric.zero;
     docsReturned := AggregatedMetric.zero;
     docsScanned := AggregatedMetric.zero;
     keysScanned := AggregatedMetric.zero |}.

(** The fields of [OpDebug] that [collectTelemetry] reads; durations are
    their [count()] in microseconds. *)
Record AdditiveMetrics : Type := {
  docsExamined : option Z;
  keysExamined : option Z
}.

Record OpDebug : Type := {
  planningTime : Z;
  executionTime : Z;
  nreturned : Z;
  additiveMetrics : AdditiveMetrics
}.

Definition value_or (o : option Z) (d : Z) : Z :=
  match o with
  | Some v => v
  | None => d
  end.

(* ================================================================== *)
(** ** The bounded partitioned store *)

(** Modelled from the spec: the [TelemetryStore] (a partitioned cache) is
    defined outside these sources.  Section 3: a partition owns a subset of
    the keys, assigned by hash, with its own memory sub-budget; the store is
    all partitions plus total-size metadata.  Section 4.3: an insertion that
    exceeds the sub-budget evicts least-recently-used entries until the
    partition fits or becomes empty.  Entries are kept from the least to the
    most recently used. *)
Abbreviation Entry := (BSONObj * TelemetryMetrics)%type.

(** Modelled from the spec: a partition, its sub-budget in bytes and its
    entries from the least to the most recently used. *)
Record Partition : Type := { budget : N; entries : list Entry }.

(** Modelled from the spec: the bytes the entries of a partition use. *)
Fixpoint usage {P : Platform} (es : list Entry) : N :=
  match es with
  | [] => 0%N
  | e :: tl => (entrySize (fst e) + usage tl)%N
  end.

(** Modelled from the spec: least recently used entries are dropped until
    the rest fits [limit] or nothing is left. *)
Fixpoint evict {P : Platform} (limit : N) (es : list Entry) : list Entry :=
  match es with
  | [] => []
  | e :: tl => if (limit <? usage (e :: tl))%N then evict limit tl else e :: tl
  end.

(** Modelled from the spec: the metrics stored under [key], if any. *)
Fixpoint lookup (key : BSONObj) (es : list Entry) : option TelemetryMetrics :=
  match es with
  | [] => None
  | e :: tl => if BSONObj_eqb (fst e) key then Some (snd e) else lookup key tl
  end.

(** Modelled from the spec: the entries without those under [key]. *)
Fixpoint remove (key : BSONObj) (es : list Entry) : list Entry :=
  match es with
  | [] => []
  | e :: tl =>
      if BSONObj_eqb (fst e) key then remove key tl else e :: remove key tl
  end.

(** Modelled from the spec: [partition->get(key)]; a hit makes the entry the
    most recently used. *)
Definition get (key : BSONObj) (p : Partition)
  : option TelemetryMetrics * Partition :=
  match lookup key (entries p) with
  | Some m =>
      (Some m,
       {| budget := budget p; entries := remove key (entries p) ++ [(key, m)] |})
  | None => (None, p)
  end.

(** Modelled from the spec: [put(key, metrics)] inserts the entry as the most
    recently used one, then evicts. *)
Definition put {P : Platform} (key : BSONObj) (m : TelemetryMetrics)
    (p : Partition) : Partition :=
  {| budget := budget p;
     entries := evict (budget p) (remove key (entries p) ++ [(key, m)]) |}.

(** Modelled from the spec: a write through the [TelemetryMetrics*] of the
    entry under [key]; its place in the recency order stays. *)
Definition modify (key : BSONObj) (f : TelemetryMetrics -> TelemetryMetrics)
    (p : Partition) : Partition :=
  {| budget := budget p;
     entries := map (fun e => if BSONObj_eqb (fst e) key
                              then (fst e, f (snd e)) else e) (entries p) |}.

(** Modelled from the spec: the store, its total byte budget and its
    partitions. *)
Record TelemetryStore : Type := { size : N; partitions : list Partition }.

Definition numPartitions (s : TelemetryStore) : nat :=
  List.length (partitions s).

(** Modelled from the spec: the constructor [TelemetryStore(size,
    numPartitions)] makes empty partitions that share the byte budget. *)
Definition makeTelemetryStore (cacheSize : N) (n : nat) : TelemetryStore :=
  {| size := cacheSize;
     partitions :=
       repeat {| budget := (cacheSize / N.of_nat n)%N; entries := [] |} n |}.

Definition emptyPartition : Partition := {| budget := 0%N; entries := [] |}.

Fixpoint replaceNth {A : Type} (i : nat) (x : A) (l : list A) : list A :=
  match l, i with
  | [], _ => []
  | _ :: tl, O => x :: tl
  | y :: tl, S j => y :: replaceNth j x tl
  end.

Definition partitionOf {P : Platform} (key : BSONObj) (s : TelemetryStore)
  : nat :=
  (hashKey key mod numPartitions s)%nat.

Definition getPartition (i : nat) (s : TelemetryStore) : Partition :=
  nth i (partitions s) emptyPartition.

Definition setPartition (i : nat) (p : Partition) (s : TelemetryStore)
  : TelemetryStore :=
  {| size := size s; partitions := replaceNth i p (partitions s) |}.


(** The metrics stored under [key], without touching recency. *)
Definition storeLookup {P : Platform} (key : BSONObj) (s : TelemetryStore)
  : option TelemetryMetrics :=
  lookup key (entries (getPartition (partitionOf key s) s)).

Definition storeIsEmpty (s : TelemetryStore) : Prop :=
  Forall (fun p => entries p = []) (partitions s).

(* ================================================================== *)
(** ** The store manager and the service context *)

(** Modelled from the spec: the lock classes are defined outside these
    sources.  Section 4.4: a shared hold guarantees the pointer is not
    replaced while it is outstanding; an exclusive hold must wait until all
    outstanding shared holds release.  Each outstanding shared hold is kept
    with the pointer that [getTelemetryStore] returned along with it. *)
Record ResourceMutex : Type := {
  nextGuard : nat;
  sharedHolds : list (nat * nat)
}.

(** [_telemetryStore] is the address of the live store among the allocated
    store objects of the service context. *)
Record TelemetryStoreManager : Type := {
  _telemetryStore : nat;
  _instanceMutex : ResourceMutex
}.

Record ServiceContext : Type := {
  storeObjects : list TelemetryStore;
  telemetryStoreDecoration : TelemetryStoreManager;
  telemetryRateLimiter : RateLimiting
}.

Definition emptyStore : TelemetryStore := {| size := 0%N; partitions := [] |}.

Definition deref (svc : ServiceContext) (p : nat) : TelemetryStore :=
  nth p (storeObjects svc) emptyStore.

Definition writeStore (p : nat) (s : TelemetryStore) (svc : ServiceContext)
  : ServiceContext :=
  {| storeObjects := replaceNth p s (storeObjects svc);
     telemetryStoreDecoration := telemetryStoreDecoration svc;
     telemetryRateLimiter := telemetryRateLimiter svc |}.

Definition setManager (m : TelemetryStoreManager) (svc : ServiceContext)
  : ServiceContext :=
  {| storeObjects := storeObjects svc;
     telemetryStoreDecoration := m;
     telemetryRateLimiter := telemetryRateLimiter svc |}.

Definition setRateLimiter (r : RateLimiting) (svc : ServiceContext)
  : ServiceContext :=
  {| storeObjects := storeObjects svc;
     telemetryStoreDecoration := telemetryStoreDecoration svc;
     telemetryRateLimiter := r |}.

(** The live store. *)
Definition liveStore (svc : ServiceContext) : TelemetryStore :=
  deref svc (_telemetryStore (telemetryStoreDecoration svc)).

(** [TelemetryStoreManager::getTelemetryStore]: the store pointer paired with
    a new shared hold. *)
Definition getTelemetryStore (m : TelemetryStoreManager)
  : (nat * nat) * TelemetryStoreManager :=
  let g := nextGuard (_instanceMutex m) in
  ((_telemetryStore m, g),
   {| _telemetryStore := _telemetryStore m;
      _instanceMutex :=
        {| nextGuard := S g;
           sharedHolds := (g, _telemetryStore m) :: sharedHolds (_instanceMutex m) |} |}).

(** The destructor of the [Lock::ResourceLock] returned above. *)
Definition releaseSharedLock (g : nat) (m : TelemetryStoreManager)
  : TelemetryStoreManager :=
  {| _telemetryStore := _telemetryStore m;
     _instanceMutex :=
       {| nextGuard := nextGuard (_instanceMutex m);
          sharedHolds :=
            filter (fun h => negb (Nat.eqb (fst h) g))
                   (sharedHolds (_instanceMutex m)) |} |}.

Definition getTelemetryStoreForRead (svc : ServiceContext)
  : (nat * nat) * ServiceContext :=
  let (r, m) := getTelemetryStore (telemetryStoreDecoration svc) in
  (r, setManager m svc).

Definition releaseRead (g : nat) (svc : ServiceContext) : ServiceContext :=
  setManager (releaseSharedLock g (telemetryStoreDecoration svc)) svc.

(** The second argument of [std::make_pair] in [getTelemetryStore] on its
    own: the shared lock, taken by a call that pairs it with the pointer [p]
    it has read before.  [getTelemetryStore] above is the two arguments
    evaluated with no other caller in between, where their order makes no
    difference. *)
Definition lockShared (p : nat) (m : TelemetryStoreManager)
  : nat * TelemetryStoreManager :=
  let g := nextGuard (_instanceMutex m) in
  (g,
   {| _telemetryStore := _telemetryStore m;
      _instanceMutex :=
        {| nextGuard := S g;
           sharedHolds := (g, p) :: sharedHolds (_instanceMutex m) |} |}).

(** [resetTelemetryStore]: [None] while the exclusive lock would still wait
    for shared holds; otherwise a new store object is allocated with the size
    and partition count of the live one, swapped in, and the address of the
    old store is returned. The exclusive lock is released on return. *)
Definition resetTelemetryStore (svc : ServiceContext)
  : option (nat * ServiceContext) :=
  let m := telemetryStoreDecoration svc in
  match sharedHolds (_instanceMutex m) with
  | _ :: _ => None
  | [] =>
      let old := _telemetryStore m in
      let newStore :=
        makeTelemetryStore (size (deref svc old)) (numPartitions (deref svc old)) in
      let new := List.length (storeObjects svc) in
      Some (old,
            {| storeObjects := storeObjects svc ++ [newStore];
               telemetryStoreDecoration :=
                 {| _telemetryStore := new; _instanceMutex := _instanceMutex m |};
               telemetryRateLimiter := telemetryRateLimiter svc |})
  end.


(* ================================================================== *)
(** ** Sampling decision *)

Definition isTelemetryEnabled (svc : ServiceContext) : bool :=
  0 <? getSamplingRate (telemetryRateLimiter svc).

(** Internal check for whether metrics should be collected. *)
Definition shouldCollect (svc : ServiceContext) : bool * ServiceContext :=
  if negb (isTelemetryEnabled svc) then (false, svc)
  else
    let (granted, r) := handleRequestSlidingWindow (telemetryRateLimiter svc) in
    if negb granted then (false, setRateLimiter r svc)
    else (true, setRateLimiter r svc).

(* ================================================================== *)
(** ** Requests and the key builder *)

(** The getters of the parsed requests that the key builder reads. *)
Module AggregateCommandRequest.
Record t : Type := {
  getEncryptionInformation : option BSONObj;
  getNamespace : NamespaceString;
  getPipeline : list BSONObj;
  getReadConcern : option BSONObj
}.
End AggregateCommandRequest.

Module FindCommandRequest.
Record t : Type := {
  getEncryptionInformation : option BSONObj;
  toBSON : BSONObj;
  getReadConcern : option BSONObj
}.
End FindCommandRequest.

Record ClientMetadata : Type := { getApplicationName : string }.

(** [getClientMetadata] is [ClientMetadata::get(opCtx->getClient())]; the
    service context of the operation is passed along as the state. *)
Record OperationContext : Type := { getClientMetadata : option ClientMetadata }.

Definition isSome {A : Type} (o : option A) : bool :=
  match o with
  | Some _ => true
  | None => false
  end.

(** The fields both builders append after the command part: the namespace,
    the read concern when present, the application name when present. *)
Definition appendContext (namespace : string) (readConcern : option BSONObj)
    (opCtx : OperationContext) : BSONObj :=
  [("namespace", StringVal namespace)]
  ++ match readConcern with
     | Some rc => [("readConcern", ObjectVal rc)]
     | None => []
     end
  ++ match getClientMetadata opCtx with
     | Some metadata => [("applicationName", StringVal (getApplicationName metadata))]
     | None => []
     end.

(** The loop over the pipeline: one sub-object named "stage" per stage,
    holding the stage's first element with its argument redacted. *)
Fixpoint redactPipeline (pipeline : list BSONObj) : Result BSONObj :=
  match pipeline with
  | [] => Ok []
  | stage :: tl =>
      let el := firstElement stage in
      o <- Obj el ;;
      rest <- redactPipeline tl ;;
      Ok (("stage", ObjectVal [(fieldNameStringData el, ObjectVal (redact o))])
          :: rest)
  end.

Definition shouldCollectTelemetry_Aggregate {P : Platform}
    (request : AggregateCommandRequest.t) (opCtx : OperationContext)
    (svc : ServiceContext) : Result (option BSONObj) * ServiceContext :=
  if isSome (AggregateCommandRequest.getEncryptionInformation request) then
    (Ok None, svc)
  else if isFLE2StateCollection (AggregateCommandRequest.getNamespace request) then
    (Ok None, svc)
  else
    let (collect, svc') := shouldCollect svc in
    if negb collect then (Ok None, svc')
    else
      (catchFLEPayload
         (pipeline <- redactPipeline (AggregateCommandRequest.getPipeline request) ;;
          Ok (Some
                (("pipeline", ArrayVal pipeline)
                 :: appendContext
                      (toString (AggregateCommandRequest.getNamespace request))
                      (AggregateCommandRequest.getReadConcern request) opCtx)))
         (Ok None),
       svc').

(** The loop over the serialized find command.  The source appends through
    [telemetryKey] while the sub-object builder [findBuilder] is open on the
    same buffer, so the entries are written inside the "find" sub-object,
    which [findBuilder.done()] closes after the loop. *)
Fixpoint redactFindEntries (findBson : BSONObj) : Result BSONObj :=
  match findBson with
  | [] => Ok []
  | findEntry :: tl =>
      e <- (if isABSONObj findEntry then
              o <- Obj findEntry ;;
              Ok (fieldNameStringData findEntry, ObjectVal (redact o))
            else
              Ok (fieldNameStringData findEntry, StringVal kRedactionDefaultMask)) ;;
      rest <- redactFindEntries tl ;;
      Ok (e :: rest)
  end.

Definition shouldCollectTelemetry_Find {P : Platform}
    (request : FindCommandRequest.t) (collection : NamespaceString)
    (opCtx : OperationContext) (svc : ServiceContext)
  : Result (option BSONObj) * ServiceContext :=
  if isSome (FindCommandRequest.getEncryptionInformation request) then
    (Ok None, svc)
  else if isFLE2StateCollection collection then (Ok None, svc)
  else
    let (collect, svc') := shouldCollect svc in
    if negb collect then (Ok None, svc')
    else
      (catchFLEPayload
         (find <- redactFindEntries (FindCommandRequest.toBSON request) ;;
          Ok (Some
                (("find", ObjectVal find)
                 :: appendContext (toString collection)
                      (FindCommandRequest.getReadConcern request) opCtx)))
         (Ok None),
       svc').

(** The overload taking an already built key. *)
Definition shouldCollectTelemetry_Key (opCtx : OperationContext)
    (telemetryKey : BSONObj) (svc : ServiceContext)
  : option BSONObj * ServiceContext :=
  if isEmpty telemetryKey then (None, svc)
  else
    let (collect, svc') := shouldCollect svc in
    if negb collect then (None, svc') else (Some telemetryKey, svc').

(* ================================================================== *)
(** ** Recording *)

(** The writes of [collectTelemetry] to the entry it found or created. *)
Definition updateMetrics (opDebug : OpDebug) (isExec : bool)
    (metrics : TelemetryMetrics) : TelemetryMetrics :=
  let m :=
    if isExec then
      {| execCount := execCount metrics + 1;
         lastExecutionMicros := lastExecutionMicros metrics;
         queryOptMicros :=
           AggregatedMetric.aggregate (planningTime opDebug) (queryOptMicros metrics);
         queryExecMicros := queryExecMicros metrics;
         docsReturned := docsReturned metrics;
         docsScanned := docsScanned metrics;
         keysScanned := keysScanned metrics |}
    else metrics in
  {| execCount := execCount m;
     lastExecutionMicros := executionTime opDebug;
     queryOptMicros := queryOptMicros m;
     queryExecMicros :=
       AggregatedMetric.aggregate (executionTime opDebug) (queryExecMicros m);
     docsReturned := AggregatedMetric.aggregate (nreturned opDebug) (docsReturned m);
     docsScanned :=
       AggregatedMetric.aggregate
         (value_or (docsExamined (additiveMetrics opDebug)) 0) (docsScanned m);
     keysScanned :=
       AggregatedMetric.aggregate
         (value_or (keysExamined (additiveMetrics opDebug)) 0) (keysScanned m) |}.

(** The lambda of [collectTelemetry]: the entry under [key] is looked up in
    its partition; when absent a fresh one is put and looked up again, and
    the tripwire assertion 7064700 checks that it is found. *)
Definition findOrCreateMetrics {P : Platform} (key : BSONObj)
    (partition : Partition) : Result unit * Partition :=
  let (statusWithMetrics, partition1) := get key partition in
  if isSome statusWithMetrics then (Ok tt, partition1)
  else
    let partition2 := put key newTelemetryMetrics partition1 in
    let (newMetrics, partition3) := get key partition2 in
    (tassert 7064700 (isSome newMetrics), partition3).

Definition collectTelemetry {P : Platform} (key : BSONObj) (opDebug : OpDebug)
    (isExec : bool) (svc : ServiceContext) : Result unit * ServiceContext :=
  let '((telemetryStore, guard), svc1) := getTelemetryStoreForRead svc in
  let store := deref svc1 telemetryStore in
  let i := partitionOf key store in
  let (found, partition) := findOrCreateMetrics key (getPartition i store) in
  let partition' :=
    match found with
    | Ok _ => modify key (updateMetrics opDebug isExec) partition
    | Throw _ => partition
    end in
  (found,
   releaseRead guard
     (writeStore telemetryStore (setPartition i partition' store) svc1)).

Fixpoint collectTelemetryTimes {P : Platform} (n : nat) (key : BSONObj)
    (opDebug : OpDebug) (isExec : bool) (svc : ServiceContext) : ServiceContext :=
  match n with
  | O => svc
  | S k =>
      collectTelemetryTimes k key opDebug isExec
        (snd (collectTelemetry key opDebug isExec svc))
  end.

(** Modelled from the spec: the command paths that call into this file are
    outside these sources.  Sections 2 and 6: an operation asks for a key
    before running and records into the live store only with a key it
    obtained. *)
Inductive Request : Type :=
| AggregateRequest (request : AggregateCommandRequest.t)
| FindRequest (request : FindCommandRequest.t) (collection : NamespaceString).

Record Operation : Type := {
  opRequest : Request;
  opContext : OperationContext;
  opDebug : OpDebug;
  opIsExec : bool
}.

Definition shouldCollectTelemetry {P : Platform} (r : Request)
    (opCtx : OperationContext) (svc : ServiceContext)
  : Result (option BSONObj) * ServiceContext :=
  match r with
  | AggregateRequest request => shouldCollectTelemetry_Aggregate request opCtx svc
  | FindRequest request collection =>
      shouldCollectTelemetry_Find request collection opCtx svc
  end.

Definition runOperation {P : Platform} (op : Operation) (svc : ServiceContext)
  : ServiceContext :=
  let (key, svc') := shouldCollectTelemetry (opRequest op) (opContext op) svc in
  match key with
  | Ok (Some k) => snd (collectTelemetry k (opDebug op) (opIsExec op) svc')
  | _ => svc'
  end.

Definition runOperations {P : Platform} (ops : list Operation)
    (svc : ServiceContext) : ServiceContext :=
  fold_left (fun s op => runOperation op s) ops svc.

(* ================================================================== *)
(** ** Interleavings of readers and resets *)

(** The callers of the manager.  [std::make_pair(&*_telemetryStore,
    Lock::SharedLock{...})] in [getTelemetryStore] leaves open in which order
    its two arguments are evaluated.  [pointersRead] are the pointers read by
    the calls that evaluated the pointer first and have not taken the lock
    yet.  Store objects are never removed: what the caller of a reset does
    with the store handed back to it is outside this file. *)
Record Callers : Type := {
  service : ServiceContext;
  pointersRead : list nat
}.

(** The steps concurrent callers take on the manager.  A call of
    [getTelemetryStore] that takes the lock first reads the pointer before
    any reset can run, which makes the two one step ([AcquireRead]).  A call
    that reads the pointer first ([ReadPointer]) takes the lock in a later
    step ([LockShared]), and other callers, a reset among them, can run in
    between.  A reader accesses the store through the pointer it was given
    while it holds, and releases; a reset runs as one step since it holds the
    exclusive lock from start to end. *)
Inductive Event : Type :=
| ReadPointer (p : nat)
| LockShared (p g : nat)
| AcquireRead (p g : nat)
| Access (g : nat) (f : TelemetryStore -> TelemetryStore)
| ReleaseRead (g : nat)
| ResetStore (old : nat).

(** One occurrence of [p] taken out of the pointers read. *)
Fixpoint removeOne (p : nat) (l : list nat) : list nat :=
  match l with
  | [] => []
  | q :: tl => if Nat.eqb p q then tl else q :: removeOne p tl
  end.

Inductive step : Callers -> Event -> Callers -> Prop :=
| step_read_pointer : forall t,
    step t
         (ReadPointer (_telemetryStore (telemetryStoreDecoration (service t))))
         {| service := service t;
            pointersRead :=
              _telemetryStore (telemetryStoreDecoration (service t))
              :: pointersRead t |}
| step_lock : forall t p g m',
    In p (pointersRead t) ->
    lockShared p (telemetryStoreDecoration (service t)) = (g, m') ->
    step t (LockShared p g)
         {| service := setManager m' (service t);
            pointersRead := removeOne p (pointersRead t) |}
| step_acquire : forall t p g svc',
    getTelemetryStoreForRead (service t) = ((p, g), svc') ->
    step t (AcquireRead p g)
         {| service := svc'; pointersRead := pointersRead t |}
| step_access : forall t g p f,
    In (g, p) (sharedHolds (_instanceMutex (telemetryStoreDecoration (service t)))) ->
    step t (Access g f)
         {| service := writeStore p (f (deref (service t) p)) (service t);
            pointersRead := pointersRead t |}
| step_release : forall t g p,
    In (g, p) (sharedHolds (_instanceMutex (telemetryStoreDecoration (service t)))) ->
    step t (ReleaseRead g)
         {| service := releaseRead g (service t);
            pointersRead := pointersRead t |}
| step_reset : forall t old svc',
    resetTelemetryStore (service t) = Some (old, svc') ->
    step t (ResetStore old)
         {| service := svc'; pointersRead := pointersRead t |}.

Inductive run : Callers -> list Event -> Callers -> Prop :=
| run_nil : forall t, run t [] t
| run_cons : forall t ev t1 evs t2,
    step t ev t1 -> run t1 evs t2 -> run t (ev :: evs) t2.



(** The live pointer is allocated, every outstanding hold carries the live
    pointer, and guard numbers are below the next one to hand out.  This is
    the state at startup and between calls that run one after the other;
    interleaved callers keep [consistent] below, not this. *)
Definition wellFormed (svc : ServiceContext) : Prop :=
  let m := telemetryStoreDecoration svc in
  (_telemetryStore m < List.length (storeObjects svc))%nat
  /\ forall g p, In (g, p) (sharedHolds (_instanceMutex m)) ->
                 p = _telemetryStore m /\ (g < nextGuard (_instanceMutex m))%nat.

Definition outstandingHolds (svc : ServiceContext) : list (nat * nat) :=
  sharedHolds (_instanceMutex (telemetryStoreDecoration svc)).

Definition livePointer (svc : ServiceContext) : nat :=
  _telemetryStore (telemetryStoreDecoration svc).


(* ================================================================== *)
(** ** Query shape *)

Definition isLiteral (v : BSONValue) : bool :=
  match v with
  | ObjectVal _ | ArrayVal _ => false
  | _ => true
  end.

(** Two values have the same shape when they are the same tree of field
    names up to the literals at the leaves. *)
Inductive sameShape : BSONValue -> BSONValue -> Prop :=
| shape_literal : forall v w,
    isLiteral v = true -> isLiteral w = true -> sameShape v w
| shape_object : forall o o', sameShapeObj o o' -> sameShape (ObjectVal o) (ObjectVal o')
| shape_array : forall o o', sameShapeObj o o' -> sameShape (ArrayVal o) (ArrayVal o')
with sameShapeObj : BSONObj -> BSONObj -> Prop :=
| shape_nil : sameShapeObj [] []
| shape_cons : forall n v w o o',
    sameShape v w -> sameShapeObj o o' -> sameShapeObj ((n, v) :: o) ((n, w) :: o').

Scheme sameShape_mut := Minimality for sameShape Sort Prop
  with sameShapeObj_mut := Minimality for sameShapeObj Sort Prop.

Combined Scheme sameShape_mutind from sameShape_mut, sameShapeObj_mut.

(** A command argument as the key builder reads it: its field name, and
    either the document [Obj()] gives or a literal. *)
Definition sameArgument (e f : BSONElement) : Prop :=
  fieldNameStringData e = fieldNameStringData f /\
  match Obj e, Obj f with
  | Ok a, Ok b => sameShapeObj a b
  | Throw _, Throw _ => True
  | _, _ => False
  end.

(** A pipeline stage is its first element: the stage name and its argument. *)
Definition sameStage (s t : BSONObj) : Prop :=
  sameArgument (firstElement s) (firstElement t).

Definition applicationName (opCtx : OperationContext) : option string :=
  option_map getApplicationName (getClientMetadata opCtx).

Definition sameAggregateStructure
    (r1 : AggregateCommandRequest.t) (c1 : OperationContext)
    (r2 : AggregateCommandRequest.t) (c2 : OperationContext) : Prop :=
  Forall2 sameStage (AggregateCommandRequest.getPipeline r1)
                    (AggregateCommandRequest.getPipeline r2)
  /\ toString (AggregateCommandRequest.getNamespace r1)
     = toString (AggregateCommandRequest.getNamespace r2)
  /\ AggregateCommandRequest.getReadConcern r1
     = AggregateCommandRequest.getReadConcern r2
  /\ applicationName c1 = applicationName c2.

Definition sameFindStructure
    (r1 : FindCommandRequest.t) (n1 : NamespaceString) (c1 : OperationContext)
    (r2 : FindCommandRequest.t) (n2 : NamespaceString) (c2 : OperationContext)
  : Prop :=
  Forall2 sameArgument (FindCommandRequest.toBSON r1) (FindCommandRequest.toBSON r2)
  /\ toString n1 = toString n2
  /\ FindCommandRequest.getReadConcern r1 = FindCommandRequest.getReadConcern r2
  /\ applicationName c1 = applicationName c2.

(* ================================================================== *)
(** ** Vocabulary for the properties of recording *)

(** The partition of the live store that [key] hashes to. *)
Definition keyPartition {P : Platform} (key : BSONObj) (svc : ServiceContext)
  : Partition :=
  getPartition (partitionOf key (liveStore svc)) (liveStore svc).

(** The metrics [collectTelemetry] starts from: the stored ones, or the
    fresh ones of a new entry. *)
Definition previousMetrics {P : Platform} (key : BSONObj) (svc : ServiceContext)
  : TelemetryMetrics :=
  match storeLookup key (liveStore svc) with
  | Some m => m
  | None => newTelemetryMetrics
  end.

(** The live store has partitions, and [key] is stored or one entry for it
    fits the sub-budget of its partition. *)
Definition canRecord {P : Platform} (key : BSONObj) (svc : ServiceContext)
  : Prop :=
  (0 < numPartitions (liveStore svc))%nat
  /\ (storeLookup key (liveStore svc) <> None
      \/ (entrySize key <= budget (keyPartition key svc))%N).

(** [collectTelemetry] has to create the entry of [key], and the entry it
    put is not found by the lookup that follows. *)
Definition freshEntryLost {P : Platform} (key : BSONObj) (svc : ServiceContext)
  : Prop :=
  storeLookup key (liveStore svc) = None
  /\ lookup key (entries (put key newTelemetryMetrics (keyPartition key svc))) = None.


(** An aggregator that has seen the value [v] exactly [n] times. *)
Definition sawConstant (n : nat) (v : Z) (a : AggregatedMetric.t) : Prop :=
  AggregatedMetric.count a = Z.of_nat n
  /\ AggregatedMetric.sum a = Z.of_nat n * v
  /\ AggregatedMetric.min a = v
  /\ AggregatedMetric.max a = v.

(* ================================================================== *)
(** ** A concrete deployment, used to run the definitions *)

Definition samplePlatform : Platform :=
  {| kDeterministic := 1;
     isFLE2StateCollection := fun n => String.eqb (ns n) "db.enxcol_.c.esc";
     hashKey := fun key => List.length key;
     entrySize := fun key => (64 + 16 * N.of_nat (List.length key))%N;
     MemorySize := N;
     getRequestedMemSizeInBytes := fun m => m;
     capMemorySize := fun requested maxGB percent =>
       N.min requested
             (N.min (maxGB * 1073741824) (percent * 4294967296 / 100))%N |}.

Definition sampleLimiter (rate : Z) : RateLimiting :=
  {| samplingRate := rate; timePeriod := 1000; clockNow := 10;
     windowStart := 0; currentCount := 0 |}.

Definition sampleManager : TelemetryStoreManager :=
  {| _telemetryStore := 0%nat;
     _instanceMutex := {| nextGuard := 0%nat; sharedHolds := [] |} |}.

(** One store of [cacheSize] bytes in [n] partitions, sampling at [rate]. *)
Definition sampleService (cacheSize : N) (n : nat) (rate : Z) : ServiceContext :=
  {| storeObjects := [makeTelemetryStore cacheSize n];
     telemetryStoreDecoration := sampleManager;
     telemetryRateLimiter := sampleLimiter rate |}.

Definition sampleContext : OperationContext :=
  {| getClientMetadata := Some {| getApplicationName := "shell" |} |}.

Definition sampleAggregate (pipeline : list BSONObj) : AggregateCommandRequest.t :=
  {| AggregateCommandRequest.getEncryptionInformation := None;
     AggregateCommandRequest.getNamespace := {| ns := "db.c" |};
     AggregateCommandRequest.getPipeline := pipeline;
     AggregateCommandRequest.getReadConcern := None |}.

Definition sampleFind (findBson : BSONObj) : FindCommandRequest.t :=
  {| FindCommandRequest.getEncryptionInformation := None;
     FindCommandRequest.toBSON := findBson;
     FindCommandRequest.getReadConcern := None |}.

(** A [$match] on field [a] against the number [n], and the key it gets. *)
Definition sampleMatch (n : Z) : AggregateCommandRequest.t :=
  sampleAggregate [[("$match", ObjectVal [("a", NumberVal n)])]].

Definition sampleMatchKey : BSONObj :=
  [("pipeline",
    ArrayVal [("stage", ObjectVal [("$match", ObjectVal [("a", StringVal "###")])])]);
   ("namespace", StringVal "db.c");
   ("applicationName", StringVal "shell")].

(** A reader holds guard 0 on the sample store. *)
Definition sampleServiceWithReader : ServiceContext :=
  snd (getTelemetryStoreForRead (sampleService 100000 4 5)).

(** The sample service with no call of [getTelemetryStore] in progress. *)
Definition sampleCallers : Callers :=
  {| service := sampleService 100000 4 5; pointersRead := [] |}.

(** What a reader does to the store it was given when it records a first
    observation under the sample key: the entry is put into its partition. *)
Definition sampleRecording (store : TelemetryStore) : TelemetryStore :=
  let i := partitionOf (P := samplePlatform) sampleMatchKey store in
  setPartition i
    (put (P := samplePlatform) sampleMatchKey newTelemetryMetrics
         (getPartition i store))
    store.

Definition sampleOpDebug : OpDebug :=
  {| planningTime := 7; executionTime := 40; nreturned := 3;
     additiveMetrics := {| docsExamined := Some 12; keysExamined := None |} |}.

(* ================================================================== *)
(** ** Startup, call sequences and outcomes of the key builder *)




(** A request that is turned away before the sampling gate is asked: it
    carries encryption information or targets an FLE2 state collection. *)
Definition refusedUpfront {P : Platform} (r : Request) : bool :=
  match r with
  | AggregateRequest request =>
      isSome (AggregateCommandRequest.getEncryptionInformation request)
      || isFLE2StateCollection (AggregateCommandRequest.getNamespace request)
  | FindRequest request collection =>
      isSome (FindCommandRequest.getEncryptionInformation request)
      || isFLE2StateCollection collection
  end.

(** The pipelines the loop of the aggregate overload gets through: the
    first element of every stage is a document or an array, so [Obj()]
    raises on none. *)
Definition stagesAreDocuments (pipeline : list BSONObj) : bool :=
  forallb (fun stage => isABSONObj (firstElement stage)) pipeline.

(** A request that passes the early returns and the sampling gate and whose
    key the builder completes. *)
Definition getsKey {P : Platform} (r : Request) (svc : ServiceContext) : Prop :=
  refusedUpfront r = false
  /\ fst (shouldCollect svc) = true
  /\ match r with
     | AggregateRequest request =>
         stagesAreDocuments (AggregateCommandRequest.getPipeline request) = true
     | FindRequest _ _ => True
     end.

(** Two requests have the same structure when they are of the same command
    kind and agree on everything that kind's key is built from, up to
    literal values. *)
Definition sameStructure (r1 : Request) (c1 : OperationContext)
    (r2 : Request) (c2 : OperationContext) : Prop :=
  match r1, r2 with
  | AggregateRequest q1, AggregateRequest q2 => sameAggregateStructure q1 c1 q2 c2
  | FindRequest q1 n1, FindRequest q2 n2 => sameFindStructure q1 n1 c1 q2 n2 c2
  | _, _ => False
  end.

(** What the pipeline loop writes for a stage: a sub-object named "stage"
    holding the stage's first element, its argument redacted. *)
Definition stageEntry (stage : BSONObj) (out : BSONElement) : Prop :=
  exists o,
    Obj (firstElement stage) = Ok o
    /\ out = ("stage",
              ObjectVal [(fieldNameStringData (firstElement stage),
                          ObjectVal (redact o))]).

(** What the loop over the find command writes for an entry: the entry's
    name with the redacted document, or with the mask when the entry is no
    document. *)
Definition findEntryKey (findEntry out : BSONElement) : Prop :=
  fieldNameStringData out = fieldNameStringData findEntry
  /\ if isABSONObj findEntry
     then exists o, Obj findEntry = Ok o /\ value out = ObjectVal (redact o)
     else value out = StringVal "###".

(** One observation after the other recorded under the same key, each with
    its own statistics and phase. *)
Definition collectTelemetryAll {P : Platform} (key : BSONObj)
    (observations : list (OpDebug * bool)) (svc : ServiceContext)
  : ServiceContext :=
  fold_left (fun s o => snd (collectTelemetry key (fst o) (snd o) s))
            observations svc.

(** The writes of a sequence of observations to one entry. *)
Definition updateMetricsAll (observations : list (OpDebug * bool))
    (m : TelemetryMetrics) : TelemetryMetrics :=
  fold_left (fun m o => updateMetrics (fst o) (snd o) m) observations m.

Definition countExecuted (observations : list (OpDebug * bool)) : nat :=
  List.length (filter (fun o => snd o) observations).

(** The documents returned over a sequence of observations. *)
Definition totalReturned (observations : list (OpDebug * bool)) : Z :=
  fold_right (fun o acc => nreturned (fst o) + acc) 0 observations.


(* ================================================================== *)
(** ** Cells of a columnar index ([db/exec/sbe/values/columnar.h]) *)

Module Columnar.
Section Cell.

(** [value::TypeTags] and its tag [Nothing] are declared outside these
    sources; a [value::Value] is a 64-bit word. *)
Variable TypeTags : Type.
Variable Nothing : TypeTags.

Record TranslatedCell : Type := {
  arrInfo : string;
  path : string;
  types : list TypeTags;
  vals : list N;
  idx : nat
}.

(** How a call ends: with a result and the cell it leaves, with the failed
    [invariant] (the process stops), or with a read past the end of [types],
    which the code does not check. *)
Inductive Outcome : Type :=
| Returned (ret : TypeTags * N) (cell : TranslatedCell)
| InvariantFailure
| UncheckedRead.

Definition nextValue (cell : TranslatedCell) : Outcome :=
  if negb (idx cell <? List.length (vals cell))%nat then InvariantFailure
  else
    match nth_error (types cell) (idx cell), nth_error (vals cell) (idx cell) with
    | Some t, Some v =>
        Returned (t, v)
          {| arrInfo := arrInfo cell;
             path := path cell;
             types := replaceNth (idx cell) Nothing (types cell);
             vals := replaceNth (idx cell) 0%N (vals cell);
             idx := S (idx cell) |}
    | _, _ => UncheckedRead
    end.

Definition moreValues (cell : TranslatedCell) : bool :=
  (idx cell <? List.length (vals cell))%nat.

(** The loop [while (cell.moreValues()) { ... cell.nextValue() ... }] of a
    reader of the cell, at most [fuel] rounds: the values read, and the cell
    left; [None] when a call did not return. *)
Fixpoint readAll (fuel : nat) (cell : TranslatedCell)
  : option (list (TypeTags * N) * TranslatedCell) :=
  match fuel with
  | O => Some ([], cell)
  | S k =>
      if moreValues cell then
        match nextValue cell with
        | Returned ret cell' =>
            match readAll k cell' with
            | Some (rest, final) => Some (ret :: rest, final)
            | None => None
            end
        | _ => None
        end
      else Some ([], cell)
  end.

(** The values the cell has still to give out. *)
Definition remaining (cell : TranslatedCell) : list (TypeTags * N) :=
  combine (skipn (idx cell) (types cell)) (skipn (idx cell) (vals cell)).

Definition wellFormedCell (cell : TranslatedCell) : Prop :=
  List.length (types cell) = List.length (vals cell)
  /\ (idx cell <= List.length (vals cell))%nat.

End Cell.
End Columnar.

Inductive SampleTag : Type := TagNothing | TagNumber | TagText.

Definition sampleCell : Columnar.TranslatedCell SampleTag :=
  {| Columnar.arrInfo := ""; Columnar.path := "a.b";
     Columnar.types := [TagNumber; TagText; TagNumber];
     Columnar.vals := [7; 4096; 9]%N;
     Columnar.idx := 1%nat |}.

(* ================================================================== *)
(** ** Severity of a health check ([db/process_health/health_check_status.h]) *)

Module HealthCheckStatus.

(** [using Severity = double;] a double is an IEEE 754 value, compared as
    IEEE 754 compares. *)
Definition Severity : Type := spec_float.

Definition kResolvedSeverity : Severity := S754_zero false.

(** The double 1.0: mantissa 2^52, exponent -52. *)
Definition kActiveFaultSeverity : Severity :=
  S754_finite false 4503599627370496 (-52).

Definition isResolved (severity : Severity) : bool :=
  SFleb severity kResolvedSeverity.

Definition isTransientFault (severity : Severity) : bool :=
  SFltb kResolvedSeverity severity && SFltb severity kActiveFaultSeverity.

Definition isActiveFault (severity : Severity) : bool :=
  SFleb (S754_finite false 4503599627370496 (-52)) severity.

Section Status.

(** [FaultFacetType] is declared outside these sources. *)
Variable FaultFacetType : Type.

Record t : Type := {
  _type : FaultFacetType;
  _severity : Severity;
  _description : string
}.

(** [explicit HealthCheckStatus(FaultFacetType type)]: a resolved status. *)
Definition resolved (type : FaultFacetType) : t :=
  {| _type := type; _severity := S754_zero false; _description := "resolved" |}.

Definition getType (s : t) : FaultFacetType := _type s.
Definition getSeverity (s : t) : Severity := _severity s.
Definition getShortDescription (s : t) : string := _description s.

(** The member [isActiveFault()]. *)
Definition isActiveFaultStatus (s : t) : bool := isActiveFault (getSeverity s).

End Status.
End HealthCheckStatus.

(* ================================================================== *)
(** * Properties *)

(** ** Documents and lists *)

Lemma bytes_eqb_refl (d : list Z) : bytes_eqb d d = true.
Proof.
  induction d as [|x d IH]; simpl; [reflexivity|].
  now rewrite Z.eqb_refl, IH.
Qed.

Lemma BSONValue_eqb_refl (v : BSONValue) : BSONValue_eqb v v = true.
Proof.
  induction v using BSONValue_induction; simpl;
    try reflexivity; try apply Z.eqb_refl; try apply String.eqb_refl.
  - induction H as [|e o He Ho IH]; [reflexivity|].
    rewrite String.eqb_refl, He. simpl. exact IH.
  - induction H as [|e o He Ho IH]; [reflexivity|].
    rewrite String.eqb_refl, He. simpl. exact IH.
  - destruct t; simpl; apply bytes_eqb_refl.
  - destruct b; reflexivity.
Qed.

Lemma BSONObj_eqb_refl (o : BSONObj) : BSONObj_eqb o o = true.
Proof. exact (BSONValue_eqb_refl (ObjectVal o)). Qed.

Lemma replaceNth_length {A : Type} (i : nat) (x : A) (l : list A) :
  List.length (replaceNth i x l) = List.length l.
Proof.
  revert i; induction l as [|y l IH]; intros [|i]; simpl; auto.
Qed.

Lemma nth_replaceNth_same {A : Type} (i : nat) (x d : A) (l : list A) :
  (i < List.length l)%nat -> nth i (replaceNth i x l) d = x.
Proof.
  revert i; induction l as [|y l IH]; intros [|i] H; simpl in *; try lia; auto.
  apply IH; lia.
Qed.

Lemma nth_replaceNth_other {A : Type} (i j : nat) (x d : A) (l : list A) :
  i <> j -> nth j (replaceNth i x l) d = nth j l d.
Proof.
  revert i j; induction l as [|y l IH]; intros [|i] [|j] H; simpl;
    try reflexivity; try congruence.
  apply IH; congruence.
Qed.

(** ** Redaction and shape *)

Lemma redactElement_unfold (name : string) (v : BSONValue) :
  redactElement name v =
  match v with
  | ObjectVal o => (name, ObjectVal (redactElements o))
  | ArrayVal o => (name, ArrayVal (redactElements o))
  | _ => (name, StringVal kRedactionDefaultMask)
  end.
Proof.
  assert (Hfix : forall o,
    (fix go (o : list (string * BSONValue)) : BSONObj :=
       match o with
       | [] => []
       | e :: tl => redactElement (fst e) (snd e) :: go tl
       end) o = redactElements o).
  { induction o as [|e tl IH]; simpl; [reflexivity|]. now rewrite IH. }
  destruct v; simpl; try reflexivity; now rewrite Hfix.
Qed.

Lemma bind_Ok_inv {A B : Type} (c : Result A) (k : A -> Result B) (b : B) :
  bind c k = Ok b -> exists a, c = Ok a /\ k a = Ok b.
Proof. destruct c as [a|e]; simpl; [eauto | discriminate]. Qed.

Ltac bind_inv H :=
  let a := fresh "a" in
  let Ha := fresh "Ha" in
  apply bind_Ok_inv in H; destruct H as [a [Ha H]].

Lemma redactElement_literal name v :
  isLiteral v = true ->
  redactElement name v = (name, StringVal kRedactionDefaultMask).
Proof.
  intros Hl. rewrite redactElement_unfold.
  destruct v; simpl in Hl; try discriminate; reflexivity.
Qed.

(** Values of the same shape redact to the same element. *)
Lemma redact_same_shape :
  (forall v w, sameShape v w ->
               forall n, redactElement n v = redactElement n w)
  /\ (forall o o', sameShapeObj o o' -> redactElements o = redactElements o').
Proof.
  apply sameShape_mutind.
  - intros v w Hv Hw n. now rewrite !redactElement_literal.
  - intros o o' _ IH n. rewrite !redactElement_unfold. now rewrite IH.
  - intros o o' _ IH n. rewrite !redactElement_unfold. now rewrite IH.
  - reflexivity.
  - intros n v w o o' _ IHv _ IHo. simpl. now rewrite (IHv n), IHo.
Qed.

Lemma redactElement_name n v : fst (redactElement n v) = n.
Proof. rewrite redactElement_unfold. now destruct v. Qed.

(** The element-wise step of the converse, shared by documents and arrays. *)
Lemma redactElements_equal_shape (o : BSONObj) :
  Forall (fun e => forall w n m,
            redactElement n (snd e) = redactElement m w -> sameShape (snd e) w) o ->
  forall o', redactElements o = redactElements o' -> sameShapeObj o o'.
Proof.
  induction 1 as [|[n v] tl Hv _ IH]; intros [|[m w] tl'] H; simpl in *;
    try discriminate.
  - constructor.
  - injection H as He Htl.
    assert (n = m).
    { pose proof (redactElement_name n v) as Hn.
      pose proof (redactElement_name m w) as Hm. congruence. }
    subst m. constructor; eauto.
Qed.

(** Conversely, values that redact to the same element have the same
    shape. *)
Lemma redact_equal_shape (v : BSONValue) :
  forall w n m, redactElement n v = redactElement m w -> sameShape v w.
Proof.
  induction v as [| | |o IHo|o IHo| | |] using BSONValue_induction;
    intros w n' m' H; rewrite !redactElement_unfold in H;
    try (destruct w; try discriminate H;
         now (apply shape_literal; reflexivity)).
  - destruct w; try discriminate H. injection H as _ Ho.
    apply shape_object. now apply redactElements_equal_shape.
  - destruct w; try discriminate H. injection H as _ Ho.
    apply shape_array. now apply redactElements_equal_shape.
Qed.

(** Documents redact to the same document iff they have the same shape. *)
Lemma redactElements_shape_iff (o o' : BSONObj) :
  sameShapeObj o o' <-> redact o = redact o'.
Proof.
  unfold redact. split.
  - apply (proj2 redact_same_shape).
  - apply redactElements_equal_shape.
    apply Forall_forall. intros e _ w n m. apply redact_equal_shape.
Qed.

Lemma Obj_isABSONObj (e : BSONElement) :
  (isABSONObj e = true -> exists o, Obj e = Ok o)
  /\ (isABSONObj e = false -> Obj e = Throw (UserAssertion (Location 10065))).
Proof.
  destruct e as [n v]; unfold isABSONObj, Obj; simpl.
  destruct v; split; intros H; try discriminate; eauto.
Qed.

Lemma redactPipeline_shape_iff (p1 : list BSONObj) :
  forall p2 k1 k2,
    redactPipeline p1 = Ok k1 -> redactPipeline p2 = Ok k2 ->
    (Forall2 sameStage p1 p2 <-> k1 = k2).
Proof.
  induction p1 as [|s tl IH]; intros [|t tl2] k1 k2 H1 H2; simpl in *.
  - inversion H1; inversion H2; subst. split; auto.
  - inversion H1; subst. bind_inv H2. bind_inv H2.
    inversion H2; subst. split; intros H; inversion H.
  - inversion H2; subst. bind_inv H1. bind_inv H1.
    inversion H1; subst. split; intros H; inversion H.
  - bind_inv H1. bind_inv H1. inversion H1; subst.
    bind_inv H2. bind_inv H2. inversion H2; subst.
    specialize (IH _ _ _ Ha0 Ha2).
    pose proof (redactElements_shape_iff a a1) as Hr.
    split.
    + intros H. inversion H as [|? ? ? ? [Hn Hs] Htl]; subst.
      rewrite Ha, Ha1 in Hs. apply Hr in Hs. apply IH in Htl.
      now rewrite Hn, Hs, Htl.
    + intros H. injection H as Hn Hs Htl.
      constructor; [|now apply IH].
      split; [exact Hn|]. rewrite Ha, Ha1. now apply Hr.
Qed.

Lemma redactFindEntries_shape_iff (f1 : BSONObj) :
  forall f2 k1 k2,
    redactFindEntries f1 = Ok k1 -> redactFindEntries f2 = Ok k2 ->
    (Forall2 sameArgument f1 f2 <-> k1 = k2).
Proof.
  induction f1 as [|e tl IH]; intros [|f tl2] k1 k2 H1 H2; simpl in *.
  - inversion H1; inversion H2; subst. split; auto.
  - inversion H1; subst. bind_inv H2. bind_inv H2.
    inversion H2; subst. split; intros H; inversion H.
  - inversion H2; subst. bind_inv H1. bind_inv H1.
    inversion H1; subst. split; intros H; inversion H.
  - bind_inv H1. bind_inv H1. inversion H1; subst.
    bind_inv H2. bind_inv H2. inversion H2; subst.
    specialize (IH _ _ _ Ha0 Ha2).
    assert (He : sameArgument e f <-> a = a1).
    { unfold sameArgument.
      destruct (isABSONObj e) eqn:Ee, (isABSONObj f) eqn:Ef.
      - destruct (proj1 (Obj_isABSONObj e) Ee) as [oe Hoe].
        destruct (proj1 (Obj_isABSONObj f) Ef) as [ofd Hof].
        rewrite Hoe in Ha. rewrite Hof in Ha1. cbn [bind] in Ha, Ha1.
        inversion Ha; inversion Ha1; subst. rewrite Hoe, Hof.
        pose proof (redactElements_shape_iff oe ofd) as Hr.
        split.
        + intros [Hn Hs]. apply Hr in Hs. now rewrite Hn, Hs.
        + intros H. injection H as Hn Hs. split; [exact Hn|now apply Hr].
      - destruct (proj1 (Obj_isABSONObj e) Ee) as [oe Hoe].
        rewrite Hoe in Ha. cbn [bind] in Ha.
        inversion Ha; inversion Ha1; subst.
        rewrite Hoe, (proj2 (Obj_isABSONObj f) Ef).
        split; [intros [_ []] | discriminate].
      - destruct (proj1 (Obj_isABSONObj f) Ef) as [ofd Hof].
        rewrite Hof in Ha1. cbn [bind] in Ha1.
        inversion Ha; inversion Ha1; subst.
        rewrite Hof, (proj2 (Obj_isABSONObj e) Ee).
        split; [intros [_ []] | discriminate].
      - inversion Ha; inversion Ha1; subst.
        rewrite (proj2 (Obj_isABSONObj e) Ee), (proj2 (Obj_isABSONObj f) Ef).
        split; [intros [Hn _]; now rewrite Hn | intros H; now injection H]. }
    split.
    + intros H. inversion H as [|? ? ? ? Hef Htl]; subst.
      apply He in Hef. apply IH in Htl. now subst.
    + intros H. injection H as Hh Htl.
      constructor; [now apply He | now apply IH].
Qed.

(** The pipeline loop ends in a key part exactly when the first element of
    every stage is a document or an array, and raises 10065 otherwise. *)
Lemma redactPipeline_outcome (pipeline : list BSONObj) :
  if stagesAreDocuments pipeline
  then exists stages, redactPipeline pipeline = Ok stages
  else redactPipeline pipeline = Throw (UserAssertion (Location 10065)).
Proof.
  induction pipeline as [|stage tl IH]; simpl; [eauto|].
  destruct (isABSONObj (firstElement stage)) eqn:E; simpl.
  - destruct (proj1 (Obj_isABSONObj _) E) as [o ->]. cbn [bind].
    destruct (stagesAreDocuments tl).
    + destruct IH as [stages ->]. cbn [bind]. eauto.
    + now rewrite IH.
  - now rewrite (proj2 (Obj_isABSONObj _) E).
Qed.

(** The loop over the find command raises nothing. *)
Lemma redactFindEntries_total (findBson : BSONObj) :
  exists entries, redactFindEntries findBson = Ok entries.
Proof.
  induction findBson as [|findEntry tl [rest IH]]; simpl; [eauto|].
  rewrite IH. destruct (isABSONObj findEntry) eqn:E.
  - destruct (proj1 (Obj_isABSONObj _) E) as [o ->]. cbn [bind]. eauto.
  - cbn [bind]. eauto.
Qed.

Lemma appendContext_inj n1 rc1 c1 n2 rc2 c2 :
  appendContext n1 rc1 c1 = appendContext n2 rc2 c2 <->
  n1 = n2 /\ rc1 = rc2 /\ applicationName c1 = applicationName c2.
Proof.
  unfold appendContext, applicationName.
  destruct c1 as [[[a1]|]], c2 as [[[a2]|]], rc1 as [r1|], rc2 as [r2|];
    simpl; split;
    solve [ intros H; repeat split; congruence
          | intros (H1 & H2 & H3); congruence ].
Qed.

(** What a returned key looks like. *)
Lemma shouldCollectTelemetry_Aggregate_key {P : Platform} request opCtx svc k svc' :
  shouldCollectTelemetry_Aggregate request opCtx svc = (Ok (Some k), svc') ->
  exists pipeline,
    redactPipeline (AggregateCommandRequest.getPipeline request) = Ok pipeline
    /\ k = ("pipeline", ArrayVal pipeline)
           :: appendContext
                (toString (AggregateCommandRequest.getNamespace request))
                (AggregateCommandRequest.getReadConcern request) opCtx.
Proof.
  unfold shouldCollectTelemetry_Aggregate.
  destruct (isSome _); [discriminate|].
  destruct (isFLE2StateCollection _); [discriminate|].
  destruct (shouldCollect svc) as [[|] s]; simpl; [|discriminate].
  destruct (redactPipeline _) as [pl|[[|id]|id]]; simpl; try discriminate.
  intros H; inversion H; subst. eauto.
Qed.

Lemma shouldCollectTelemetry_Find_key {P : Platform} request collection opCtx
    svc k svc' :
  shouldCollectTelemetry_Find request collection opCtx svc = (Ok (Some k), svc') ->
  exists find,
    redactFindEntries (FindCommandRequest.toBSON request) = Ok find
    /\ k = ("find", ObjectVal find)
           :: appendContext (toString collection)
                (FindCommandRequest.getReadConcern request) opCtx.
Proof.
  unfold shouldCollectTelemetry_Find.
  destruct (isSome _); [discriminate|].
  destruct (isFLE2StateCollection _); [discriminate|].
  destruct (shouldCollect svc) as [[|] s]; simpl; [|discriminate].
  destruct (redactFindEntries _) as [pl|[[|id]|id]]; simpl; try discriminate.
  intros H; inversion H; subst. eauto.
Qed.

(** ** The key builder: refusals *)

Lemma shouldCollectTelemetry_Aggregate_encrypted {P : Platform} request opCtx svc :
  isSome (AggregateCommandRequest.getEncryptionInformation request) = true ->
  shouldCollectTelemetry_Aggregate request opCtx svc = (Ok None, svc).
Proof. unfold shouldCollectTelemetry_Aggregate. now intros ->. Qed.

Lemma shouldCollectTelemetry_Aggregate_state_collection {P : Platform}
    request opCtx svc :
  isFLE2StateCollection (AggregateCommandRequest.getNamespace request) = true ->
  shouldCollectTelemetry_Aggregate request opCtx svc = (Ok None, svc).
Proof.
  unfold shouldCollectTelemetry_Aggregate. intros ->. now destruct (isSome _).
Qed.

Lemma shouldCollectTelemetry_Find_encrypted {P : Platform} request collection
    opCtx svc :
  isSome (FindCommandRequest.getEncryptionInformation request) = true ->
  shouldCollectTelemetry_Find request collection opCtx svc = (Ok None, svc).
Proof. unfold shouldCollectTelemetry_Find. now intros ->. Qed.

Lemma shouldCollectTelemetry_Find_state_collection {P : Platform} request
    collection opCtx svc :
  isFLE2StateCollection collection = true ->
  shouldCollectTelemetry_Find request collection opCtx svc = (Ok None, svc).
Proof.
  unfold shouldCollectTelemetry_Find. intros ->. now destruct (isSome _).
Qed.

(** The guard as written, were it called: on a string it passes exactly the
    sentinel field path, on an embedded document exactly the sentinel names,
    and raises on every other string or document name. *)
Lemma throwIfEncounteringFLEPayload_string {P : Platform} name s :
  throwIfEncounteringFLEPayload (name, StringVal s)
  = if String.eqb s fieldpath then Ok tt
    else Throw (UserAssertion EncounteredFLEPayloadWhileRedacting).
Proof. reflexivity. Qed.

Lemma throwIfEncounteringFLEPayload_object {P : Platform} name o :
  throwIfEncounteringFLEPayload (name, ObjectVal o)
  = if String.eqb name safeContentLabel || startsWith name internalFlePrefix
    then Ok tt
    else Throw (UserAssertion EncounteredFLEPayloadWhileRedacting).
Proof. reflexivity. Qed.

Lemma throwIfEncounteringFLEPayload_encrypted {P : Platform} name data :
  throwIfEncounteringFLEPayload (name, BinDataVal BinDataType.Encrypt data)
  = if (1 <? Z.of_nat (List.length data)) && negb (nth 1 data 0 =? kDeterministic)
    then Ok tt
    else Throw (UserAssertion EncounteredFLEPayloadWhileRedacting).
Proof. reflexivity. Qed.

(** C1, evaluated where the code departs from it.  An aggregate request
    whose [$match] stage compares a field with the sentinel field path
    ["$__safeContent__"] is given a redacted key, where the specification has
    no key returned for a request carrying that marker: no guard is run on
    the stage, and the guard as written would let the marker pass. *)
Theorem sentinel_field_path_is_given_a_key :
  fst (shouldCollectTelemetry_Aggregate (P := samplePlatform)
         (sampleAggregate [[("$match", ObjectVal [("a", StringVal fieldpath)])]])
         sampleContext (sampleService 100000 4 5))
  = Ok (Some [("pipeline",
               ArrayVal [("stage",
                          ObjectVal [("$match",
                                      ObjectVal [("a", StringVal "###")])])]);
              ("namespace", StringVal "db.c");
              ("applicationName", StringVal "shell")]).
Proof. reflexivity. Qed.

(** The same happens for an embedded document under the sentinel field
    name; a request with an ordinary string literal is given a key as
    well. *)
Example sentinel_field_name_is_given_a_key :
  fst (shouldCollectTelemetry_Aggregate (P := samplePlatform)
         (sampleAggregate
            [[("$match",
               ObjectVal [(safeContentLabel, ObjectVal [("$eq", NumberVal 1)])])]])
         sampleContext (sampleService 100000 4 5))
  = Ok (Some [("pipeline",
               ArrayVal
                 [("stage",
                   ObjectVal
                     [("$match",
                       ObjectVal [(safeContentLabel,
                                   ObjectVal [("$eq", StringVal "###")])])])]);
              ("namespace", StringVal "db.c");
              ("applicationName", StringVal "shell")]).
Proof. reflexivity. Qed.

Example ordinary_string_literal_is_given_a_key :
  fst (shouldCollectTelemetry_Aggregate (P := samplePlatform)
         (sampleAggregate [[("$match", ObjectVal [("a", StringVal "x")])]])
         sampleContext (sampleService 100000 4 5))
  = Ok (Some sampleMatchKey).
Proof. reflexivity. Qed.

(** A stage whose argument is no document makes [Obj()] raise 10065, which
    the handler does not catch. *)
Example literal_stage_argument_raises :
  fst (shouldCollectTelemetry_Aggregate (P := samplePlatform)
         (sampleAggregate [[("$limit", NumberVal 3)]])
         sampleContext (sampleService 100000 4 5))
  = Throw (UserAssertion (Location 10065)).
Proof. reflexivity. Qed.

(** ** The key builder: shape *)

(** Keys that are returned are equal exactly when the requests have the same
    structure; an aggregate key never equals a find key. *)
Lemma returned_keys_equal_iff {P : Platform} :
  (forall r1 c1 s1 r2 c2 s2 k1 k2 s1' s2',
     shouldCollectTelemetry_Aggregate r1 c1 s1 = (Ok (Some k1), s1') ->
     shouldCollectTelemetry_Aggregate r2 c2 s2 = (Ok (Some k2), s2') ->
     (sameAggregateStructure r1 c1 r2 c2 <-> k1 = k2))
  /\ (forall r1 n1 c1 s1 r2 n2 c2 s2 k1 k2 s1' s2',
     shouldCollectTelemetry_Find r1 n1 c1 s1 = (Ok (Some k1), s1') ->
     shouldCollectTelemetry_Find r2 n2 c2 s2 = (Ok (Some k2), s2') ->
     (sameFindStructure r1 n1 c1 r2 n2 c2 <-> k1 = k2))
  /\ (forall r1 c1 s1 r2 n2 c2 s2 k1 k2 s1' s2',
     shouldCollectTelemetry_Aggregate r1 c1 s1 = (Ok (Some k1), s1') ->
     shouldCollectTelemetry_Find r2 n2 c2 s2 = (Ok (Some k2), s2') ->
     k1 <> k2).
Proof.
  split; [|split].
  - intros r1 c1 s1 r2 c2 s2 k1 k2 s1' s2' H1 H2.
    apply shouldCollectTelemetry_Aggregate_key in H1, H2.
    destruct H1 as (p1 & Hp1 & ->), H2 as (p2 & Hp2 & ->).
    pose proof (redactPipeline_shape_iff _ _ Hp1 Hp2) as Hp.
    set (ctx1 := appendContext _ _ c1). set (ctx2 := appendContext _ _ c2).
    unfold sameAggregateStructure. split.
    + intros (Hs & Hn & Hr & Ha). apply Hp in Hs. subst p2.
      f_equal. apply appendContext_inj. auto.
    + intros H.
      assert (Hpl : p1 = p2) by congruence.
      assert (Hctx : ctx1 = ctx2) by congruence.
      subst ctx1 ctx2. apply appendContext_inj in Hctx.
      split; [now apply Hp | exact Hctx].
  - intros r1 n1 c1 s1 r2 n2 c2 s2 k1 k2 s1' s2' H1 H2.
    apply shouldCollectTelemetry_Find_key in H1, H2.
    destruct H1 as (p1 & Hp1 & ->), H2 as (p2 & Hp2 & ->).
    pose proof (redactFindEntries_shape_iff _ _ Hp1 Hp2) as Hp.
    set (ctx1 := appendContext _ _ c1). set (ctx2 := appendContext _ _ c2).
    unfold sameFindStructure. split.
    + intros (Hs & Hn & Hr & Ha). apply Hp in Hs. subst p2.
      f_equal. apply appendContext_inj. auto.
    + intros H.
      assert (Hpl : p1 = p2) by congruence.
      assert (Hctx : ctx1 = ctx2) by congruence.
      subst ctx1 ctx2. apply appendContext_inj in Hctx.
      split; [now apply Hp | exact Hctx].
  - intros r1 c1 s1 r2 n2 c2 s2 k1 k2 s1' s2' H1 H2.
    apply shouldCollectTelemetry_Aggregate_key in H1.
    apply shouldCollectTelemetry_Find_key in H2.
    destruct H1 as (p1 & _ & ->), H2 as (p2 & _ & ->). discriminate.
Qed.

Lemma pair_of_fst {A B : Type} (x : A * B) (a : A) :
  fst x = a -> x = (a, snd x).
Proof. destruct x; simpl; now intros ->. Qed.

(** Past the early returns and the sampling gate, the aggregate overload is
    its [try] block and the find overload always completes its key. *)
Lemma shouldCollectTelemetry_Aggregate_granted {P : Platform} request c svc :
  refusedUpfront (AggregateRequest request) = false ->
  fst (shouldCollect svc) = true ->
  fst (shouldCollectTelemetry_Aggregate request c svc)
  = catchFLEPayload
      (pipeline <- redactPipeline (AggregateCommandRequest.getPipeline request) ;;
       Ok (Some
             (("pipeline", ArrayVal pipeline)
              :: appendContext
                   (toString (AggregateCommandRequest.getNamespace request))
                   (AggregateCommandRequest.getReadConcern request) c)))
      (Ok None).
Proof.
  simpl. intros Hr Hs. apply orb_false_iff in Hr as [He Hf].
  unfold shouldCollectTelemetry_Aggregate. rewrite He, Hf.
  destruct (shouldCollect svc) as [[|] s]; simpl in *; [reflexivity|discriminate].
Qed.

Lemma shouldCollectTelemetry_Find_granted {P : Platform} request collection c svc :
  refusedUpfront (FindRequest request collection) = false ->
  fst (shouldCollect svc) = true ->
  exists entries,
    redactFindEntries (FindCommandRequest.toBSON request) = Ok entries
    /\ fst (shouldCollectTelemetry_Find request collection c svc)
       = Ok (Some (("find", ObjectVal entries)
                   :: appendContext (toString collection)
                        (FindCommandRequest.getReadConcern request) c)).
Proof.
  simpl. intros Hr Hs. apply orb_false_iff in Hr as [He Hf].
  unfold shouldCollectTelemetry_Find. rewrite He, Hf.
  destruct (shouldCollect svc) as [[|] s]; simpl in *; [|discriminate].
  destruct (redactFindEntries_total (FindCommandRequest.toBSON request))
    as [entries Hentries].
  exists entries. split; [exact Hentries|]. now rewrite Hentries.
Qed.

Lemma shouldCollectTelemetry_getsKey {P : Platform} r c svc :
  getsKey r svc -> exists k, fst (shouldCollectTelemetry r c svc) = Ok (Some k).
Proof.
  destruct r as [request|request collection]; intros (Hr & Hs & Hd).
  - cbn [shouldCollectTelemetry].
    rewrite (shouldCollectTelemetry_Aggregate_granted request c svc Hr Hs).
    pose proof (redactPipeline_outcome
                  (AggregateCommandRequest.getPipeline request)) as Ho.
    rewrite Hd in Ho. destruct Ho as [stages ->]. cbn. eauto.
  - cbn [shouldCollectTelemetry].
    destruct (shouldCollectTelemetry_Find_granted request collection c svc Hr Hs)
      as (entries & _ & ->). eauto.
Qed.

(** C2.  Two requests that get a key (neither is turned away by the early
    returns or by sampling, and the stages of an aggregate request are
    documents) get equal keys exactly when they have the same structure: the
    same command kind, the same stages (find: the same command fields) in the
    same order up to literal values, the same namespace, read concern and
    application name.  So requests that differ only in literals get identical
    keys, and requests that differ in shape get different keys. *)
Theorem key_equal_iff_same_structure (P : Platform)
    (r1 : Request) (c1 : OperationContext) (s1 : ServiceContext)
    (r2 : Request) (c2 : OperationContext) (s2 : ServiceContext) :
  getsKey r1 s1 -> getsKey r2 s2 ->
  exists k1 k2,
    fst (shouldCollectTelemetry r1 c1 s1) = Ok (Some k1)
    /\ fst (shouldCollectTelemetry r2 c2 s2) = Ok (Some k2)
    /\ (sameStructure r1 c1 r2 c2 <-> k1 = k2).
Proof.
  intros G1 G2.
  destruct (@shouldCollectTelemetry_getsKey P r1 c1 s1 G1) as [k1 H1].
  destruct (@shouldCollectTelemetry_getsKey P r2 c2 s2 G2) as [k2 H2].
  exists k1, k2. split; [exact H1|]. split; [exact H2|].
  destruct (@returned_keys_equal_iff P) as (Ha & Hf & Hx).
  apply pair_of_fst in H1, H2.
  destruct r1 as [q1|q1 n1], r2 as [q2|q2 n2]; cbn [shouldCollectTelemetry] in H1, H2;
    cbn [sameStructure].
  - exact (Ha _ _ _ _ _ _ _ _ _ _ H1 H2).
  - split; [contradiction|]. exact (Hx _ _ _ _ _ _ _ _ _ _ _ H1 H2).
  - split; [contradiction|]. intros E. symmetry in E.
    exact (Hx _ _ _ _ _ _ _ _ _ _ _ H2 H1 E).
  - exact (Hf _ _ _ _ _ _ _ _ _ _ _ _ H1 H2).
Qed.

(** Two find commands that filter on the same field with different names,
    and two [$match] stages that compare the same field with different
    strings. *)
Lemma key_equal_iff_same_structure_witness :
  (exists k1 k2,
     fst (shouldCollectTelemetry (P := samplePlatform)
            (FindRequest
               (sampleFind [("find", StringVal "c");
                            ("filter", ObjectVal [("name", StringVal "bob")])])
               {| ns := "db.c" |})
            sampleContext (sampleService 100000 4 5)) = Ok (Some k1)
     /\ fst (shouldCollectTelemetry (P := samplePlatform)
               (FindRequest
                  (sampleFind [("find", StringVal "c");
                               ("filter", ObjectVal [("name", StringVal "alice")])])
                  {| ns := "db.c" |})
               sampleContext (sampleService 100000 4 5)) = Ok (Some k2)
     /\ (sameStructure
           (FindRequest
              (sampleFind [("find", StringVal "c");
                           ("filter", ObjectVal [("name", StringVal "bob")])])
              {| ns := "db.c" |}) sampleContext
           (FindRequest
              (sampleFind [("find", StringVal "c");
                           ("filter", ObjectVal [("name", StringVal "alice")])])
              {| ns := "db.c" |}) sampleContext
         <-> k1 = k2))
  /\ (exists k1 k2,
       fst (shouldCollectTelemetry (P := samplePlatform)
              (AggregateRequest
                 (sampleAggregate [[("$match", ObjectVal [("a", StringVal "x")])]]))
              sampleContext (sampleService 100000 4 5)) = Ok (Some k1)
       /\ fst (shouldCollectTelemetry (P := samplePlatform)
                 (AggregateRequest
                    (sampleAggregate
                       [[("$match",
                          ObjectVal [("a", ObjectVal [("$gt", NumberVal 5)])])]]))
                 sampleContext (sampleService 100000 4 5)) = Ok (Some k2)
       /\ (sameStructure
             (AggregateRequest
                (sampleAggregate [[("$match", ObjectVal [("a", StringVal "x")])]]))
             sampleContext
             (AggregateRequest
                (sampleAggregate
                   [[("$match",
                      ObjectVal [("a", ObjectVal [("$gt", NumberVal 5)])])]]))
             sampleContext
           <-> k1 = k2)).
Proof.
  split; apply (@key_equal_iff_same_structure samplePlatform);
    (split; [reflexivity | split; [reflexivity | exact I || reflexivity]]).
Defined.

(** ** Sampling *)

Lemma shouldCollect_disabled svc :
  getSamplingRate (telemetryRateLimiter svc) = 0 -> shouldCollect svc = (false, svc).
Proof.
  unfold shouldCollect, isTelemetryEnabled. now intros ->.
Qed.

Lemma shouldCollectTelemetry_disabled {P : Platform} r c svc :
  getSamplingRate (telemetryRateLimiter svc) = 0 ->
  shouldCollectTelemetry r c svc = (Ok None, svc).
Proof.
  intros H. destruct r as [request|request collection]; simpl;
    [unfold shouldCollectTelemetry_Aggregate | unfold shouldCollectTelemetry_Find];
    rewrite (shouldCollect_disabled _ H);
    destruct (isSome _); try reflexivity;
    destruct (isFLE2StateCollection _); reflexivity.
Qed.

Lemma runOperations_disabled {P : Platform} ops : forall svc,
  getSamplingRate (telemetryRateLimiter svc) = 0 -> runOperations ops svc = svc.
Proof.
  unfold runOperations.
  induction ops as [|op ops IH]; intros svc H; simpl; [reflexivity|].
  unfold runOperation at 2. rewrite (shouldCollectTelemetry_disabled _ _ _ H).
  now apply IH.
Qed.

(** C3.  With a sampling rate of 0 every overload of [shouldCollectTelemetry]
    returns nothing and leaves the service untouched, and whatever operations
    run, the live store stays as it was: an empty store remains empty. *)
Theorem sampling_rate_zero_disables_telemetry (P : Platform) (svc : ServiceContext) :
  getSamplingRate (telemetryRateLimiter svc) = 0 ->
  (forall request opCtx,
      shouldCollectTelemetry_Aggregate request opCtx svc = (Ok None, svc))
  /\ (forall request collection opCtx,
      shouldCollectTelemetry_Find request collection opCtx svc = (Ok None, svc))
  /\ (forall opCtx key, shouldCollectTelemetry_Key opCtx key svc = (None, svc))
  /\ (forall ops,
      runOperations ops svc = svc
      /\ (storeIsEmpty (liveStore svc) ->
          storeIsEmpty (liveStore (runOperations ops svc)))).
Proof.
  intros H. repeat split.
  - intros request opCtx.
    exact (shouldCollectTelemetry_disabled (AggregateRequest request) opCtx _ H).
  - intros request collection opCtx.
    exact (shouldCollectTelemetry_disabled (FindRequest request collection) opCtx _ H).
  - intros opCtx key. unfold shouldCollectTelemetry_Key.
    rewrite (shouldCollect_disabled _ H). now destruct (isEmpty key).
  - now apply runOperations_disabled.
  - now rewrite runOperations_disabled.
Qed.

Lemma sampling_rate_zero_disables_telemetry_witness :
  runOperations (P := samplePlatform)
    [ {| opRequest := AggregateRequest (sampleMatch 1); opContext := sampleContext;
         opDebug := sampleOpDebug; opIsExec := true |};
      {| opRequest := FindRequest (sampleFind [("find", StringVal "c")]) {| ns := "db.c" |};
         opContext := sampleContext; opDebug := sampleOpDebug; opIsExec := true |} ]
    (sampleService 100000 4 0)
  = sampleService 100000 4 0.
Proof.
  apply (proj2 (proj2 (proj2
           (sampling_rate_zero_disables_telemetry samplePlatform
              (sampleService 100000 4 0) eq_refl)))).
Defined.

Lemma shouldCollect_granted svc svc' :
  shouldCollect svc = (true, svc') ->
  exists r, handleRequestSlidingWindow (telemetryRateLimiter svc) = (true, r)
            /\ svc' = setRateLimiter r svc.
Proof.
  unfold shouldCollect. destruct (isTelemetryEnabled svc); simpl; [|discriminate].
  destruct (handleRequestSlidingWindow _) as [[|] r]; simpl; [|discriminate].
  intros H; inversion H; eauto.
Qed.

Lemma shouldCollectTelemetry_granted {P : Platform} r c svc k svc' :
  shouldCollectTelemetry r c svc = (Ok (Some k), svc') ->
  shouldCollect svc = (true, svc') /\ isEmpty k = false.
Proof.
  destruct r as [request|request collection]; simpl; intros H.
  - pose proof (shouldCollectTelemetry_Aggregate_key _ _ _ H) as (pl & _ & ->).
    split; [|reflexivity]. revert H. unfold shouldCollectTelemetry_Aggregate.
    destruct (isSome _); [discriminate|].
    destruct (isFLE2StateCollection _); [discriminate|].
    destruct (shouldCollect svc) as [[|] s]; simpl; [|discriminate].
    intros H; now inversion H.
  - pose proof (shouldCollectTelemetry_Find_key _ _ _ _ H) as (pl & _ & ->).
    split; [|reflexivity]. revert H. unfold shouldCollectTelemetry_Find.
    destruct (isSome _); [discriminate|].
    destruct (isFLE2StateCollection _); [discriminate|].
    destruct (shouldCollect svc) as [[|] s]; simpl; [|discriminate].
    intros H; now inversion H.
Qed.

(** An granted request advances the counter of the (rolled) window by one
    and leaves a window that needs no further roll at the same clock
    reading. *)
Lemma handleRequestSlidingWindow_granted r r' :
  0 < timePeriod r ->
  handleRequestSlidingWindow r = (true, r') ->
  currentCount r' = currentCount (rollWindow r) + 1
  /\ rollWindow r' = r' /\ timePeriod r' = timePeriod r.
Proof.
  unfold handleRequestSlidingWindow, rollWindow. intros HT.
  destruct (windowStart r + timePeriod r <=? clockNow r) eqn:Hroll; simpl;
    destruct (_ <? samplingRate r); try discriminate;
    intros H; inversion H; subst; clear H; simpl; repeat split.
  - assert (Hn : (clockNow r + timePeriod r <=? clockNow r) = false)
      by (apply Z.leb_gt; lia).
    now rewrite Hn.
  - now rewrite Hroll.
Qed.

(** C10.  The overload taking a built key returns nothing for an empty key
    without consulting the sampling gate; for any other key it runs
    [shouldCollect] again and returns the key unchanged when granted.  So an
    operation whose key was built by the request overload and is passed here
    is counted twice in the window: the counter is two above that of the
    window the first call rolled to. *)
Theorem shouldCollectTelemetry_Key_samples_again (P : Platform)
    (opCtx : OperationContext) (key : BSONObj) (svc : ServiceContext) :
  (isEmpty key = true -> shouldCollectTelemetry_Key opCtx key svc = (None, svc))
  /\ (isEmpty key = false ->
      shouldCollectTelemetry_Key opCtx key svc
      = (if fst (shouldCollect svc) then Some key else None, snd (shouldCollect svc)))
  /\ (forall r c svc0 key' svc',
      0 < timePeriod (telemetryRateLimiter svc0) ->
      shouldCollectTelemetry r c svc0 = (Ok (Some key), svc) ->
      shouldCollectTelemetry_Key opCtx key svc = (Some key', svc') ->
      key' = key
      /\ currentCount (telemetryRateLimiter svc)
         = currentCount (rollWindow (telemetryRateLimiter svc0)) + 1
      /\ currentCount (telemetryRateLimiter svc')
         = currentCount (rollWindow (telemetryRateLimiter svc0)) + 2).
Proof.
  unfold shouldCollectTelemetry_Key. split; [|split].
  - now intros ->.
  - intros ->. now destruct (shouldCollect svc) as [[|] s].
  - intros r c svc0 key' svc' HT Hbuilt Hkey.
    apply shouldCollectTelemetry_granted in Hbuilt as [Hfirst Hk].
    rewrite Hk in Hkey.
    apply shouldCollect_granted in Hfirst as (r0 & Hr0 & ->).
    apply handleRequestSlidingWindow_granted in Hr0 as (Hc & Hroll & HT0);
      [|assumption].
    destruct (shouldCollect (setRateLimiter r0 svc0)) as [[|] s] eqn:Hs;
      simpl in Hkey; [|discriminate].
    inversion Hkey; subst.
    apply shouldCollect_granted in Hs as (r1 & Hr1 & ->). simpl in *.
    apply handleRequestSlidingWindow_granted in Hr1 as (Hc1 & _ & _); [|lia].
    rewrite Hc1, Hroll, Hc. repeat split; lia.
Qed.

Lemma shouldCollectTelemetry_Key_samples_again_witness :
  currentCount (telemetryRateLimiter
     (snd (shouldCollectTelemetry_Key sampleContext sampleMatchKey
             (snd (shouldCollectTelemetry_Aggregate (P := samplePlatform)
                     (sampleMatch 1) sampleContext (sampleService 100000 4 5))))))
  = currentCount (rollWindow (telemetryRateLimiter (sampleService 100000 4 5))) + 2.
Proof.
  apply (proj2 (proj2 (proj2 (proj2
           (shouldCollectTelemetry_Key_samples_again samplePlatform sampleContext
              sampleMatchKey
              (snd (shouldCollectTelemetry_Aggregate (P := samplePlatform)
                      (sampleMatch 1) sampleContext (sampleService 100000 4 5)))))
           (AggregateRequest (sampleMatch 1)) sampleContext
           (sampleService 100000 4 5) sampleMatchKey _
           eq_refl eq_refl eq_refl))).
Defined.

(** ** The store *)

Lemma lookup_app key es es' :
  lookup key (es ++ es') =
  match lookup key es with
  | Some m => Some m
  | None => lookup key es'
  end.
Proof.
  induction es as [|e es IH]; simpl; [reflexivity|].
  now destruct (BSONObj_eqb (fst e) key).
Qed.

Lemma lookup_remove key es : lookup key (remove key es) = None.
Proof.
  induction es as [|e es IH]; simpl; [reflexivity|].
  destruct (BSONObj_eqb (fst e) key) eqn:E; simpl; [exact IH|].
  now rewrite E.
Qed.

Lemma lookup_modify key f p :
  lookup key (entries (modify key f p)) = option_map f (lookup key (entries p)).
Proof.
  unfold modify; simpl.
  induction (entries p) as [|e es IH]; simpl; [reflexivity|].
  destruct (BSONObj_eqb (fst e) key) eqn:E; simpl; now rewrite E.
Qed.

Lemma lookup_promoted key es m :
  lookup key (remove key es ++ [(key, m)]) = Some m.
Proof.
  rewrite lookup_app, lookup_remove. simpl. now rewrite BSONObj_eqb_refl.
Qed.

Lemma usage_app {P : Platform} es es' :
  usage (es ++ es') = (usage es + usage es')%N.
Proof.
  induction es as [|e es IH]; simpl; [reflexivity|]. rewrite IH. lia.
Qed.

(** An entry larger than the limit is evicted along with everything older. *)
Lemma evict_too_big {P : Platform} limit es e :
  (limit < entrySize (fst e))%N -> evict limit (es ++ [e]) = [].
Proof.
  intros H. induction es as [|x es IH].
  - simpl. replace (limit <? entrySize (fst e) + 0)%N with true; [reflexivity|].
    symmetry. apply N.ltb_lt. lia.
  - change (evict limit ((x :: es) ++ [e]))
      with (if (limit <? usage (x :: es ++ [e]))%N
            then evict limit (es ++ [e]) else x :: es ++ [e]).
    replace (limit <? usage (x :: es ++ [e]))%N with true; [exact IH|].
    symmetry. apply N.ltb_lt. simpl. rewrite usage_app. simpl. lia.
Qed.

(** An entry within the limit survives as the most recent one; what is
    evicted is a prefix of the older entries. *)
Lemma evict_fits {P : Platform} limit es e :
  (entrySize (fst e) <= limit)%N ->
  exists older kept, es = older ++ kept /\ evict limit (es ++ [e]) = kept ++ [e].
Proof.
  intros H. induction es as [|x es IH].
  - exists [], []. split; [reflexivity|]. simpl.
    replace (limit <? entrySize (fst e) + 0)%N with false; [reflexivity|].
    symmetry. apply N.ltb_ge. lia.
  - change (evict limit ((x :: es) ++ [e]))
      with (if (limit <? usage (x :: es ++ [e]))%N
            then evict limit (es ++ [e]) else x :: es ++ [e]).
    destruct (limit <? usage (x :: es ++ [e]))%N.
    + destruct IH as (older & kept & -> & IH).
      exists (x :: older), kept. split; [reflexivity|exact IH].
    + exists [], (x :: es). split; reflexivity.
Qed.

Lemma lookup_put_fits {P : Platform} key m p :
  (entrySize key <= budget p)%N -> lookup key (entries (put key m p)) = Some m.
Proof.
  intros H. unfold put; cbn [entries].
  destruct (evict_fits (remove key (entries p)) (key, m) H)
    as (older & kept & Hes & ->).
  pose proof (lookup_remove key (entries p)) as Hr.
  rewrite Hes, lookup_app in Hr.
  rewrite lookup_app.
  destruct (lookup key older); [discriminate|]. rewrite Hr. simpl.
  now rewrite BSONObj_eqb_refl.
Qed.

Lemma get_spec key p :
  fst (get key p) = lookup key (entries p)
  /\ lookup key (entries (snd (get key p))) = lookup key (entries p)
  /\ budget (snd (get key p)) = budget p.
Proof.
  unfold get. destruct (lookup key (entries p)) as [m|] eqn:E; simpl; auto.
  repeat split. apply lookup_promoted.
Qed.

(** The three outcomes of the lambda of [collectTelemetry]. *)
Lemma findOrCreateMetrics_spec {P : Platform} key p :
  let r := findOrCreateMetrics key p in
  budget (snd r) = budget p
  /\ match lookup key (entries p) with
     | Some m => fst r = Ok tt /\ lookup key (entries (snd r)) = Some m
     | None =>
         if (entrySize key <=? budget p)%N
         then fst r = Ok tt
              /\ lookup key (entries (snd r)) = Some newTelemetryMetrics
         else fst r = Throw (TripwireAssertion 7064700)
              /\ lookup key (entries (snd r)) = None
     end.
Proof.
  unfold findOrCreateMetrics.
  pose proof (get_spec key p) as (Hf & Hl & Hb).
  destruct (get key p) as [status p1]; simpl in *. subst status.
  destruct (lookup key (entries p)) as [m|] eqn:E; simpl; [now auto|].
  pose proof (get_spec key (put key newTelemetryMetrics p1)) as (Hf2 & Hl2 & Hb2).
  destruct (get key (put key newTelemetryMetrics p1)) as [status2 p3];
    simpl in *. subst status2.
  split; [now rewrite Hb2|].
  destruct (entrySize key <=? budget p)%N eqn:Hfit.
  - apply N.leb_le in Hfit. rewrite <- Hb in Hfit.
    pose proof (lookup_put_fits key newTelemetryMetrics p1 Hfit) as Hput.
    unfold put in Hput; cbn [entries] in Hput.
    rewrite Hl2, Hput. auto.
  - apply N.leb_gt in Hfit. rewrite <- Hb in Hfit.
    rewrite Hl2.
    rewrite (evict_too_big (remove key (entries p1)) (key, newTelemetryMetrics) Hfit).
    auto.
Qed.

(** ** Recording into the live store *)

Lemma liveStore_allocated svc :
  (0 < numPartitions (liveStore svc))%nat ->
  (_telemetryStore (telemetryStoreDecoration svc) < List.length (storeObjects svc))%nat.
Proof.
  unfold liveStore, deref. intros H.
  destruct (Nat.lt_ge_cases (_telemetryStore (telemetryStoreDecoration svc))
                            (List.length (storeObjects svc))) as [Hlt|Hge];
    [exact Hlt|].
  rewrite (nth_overflow _ _ Hge) in H. unfold numPartitions, emptyStore in H.
  simpl in H. lia.
Qed.

(** The effect of [collectTelemetry] on the live store: the partition of the
    key is replaced by the one the lookup-or-create step and the metric
    writes leave. *)
Lemma collectTelemetry_liveStore {P : Platform} key d isExec svc :
  (0 < numPartitions (liveStore svc))%nat ->
  let store := liveStore svc in
  let i := partitionOf key store in
  let fc := findOrCreateMetrics key (getPartition i store) in
  fst (collectTelemetry key d isExec svc) = fst fc
  /\ liveStore (snd (collectTelemetry key d isExec svc))
     = setPartition i
         (match fst fc with
          | Ok _ => modify key (updateMetrics d isExec) (snd fc)
          | Throw _ => snd fc
          end) store.
Proof.
  intros Hn store i fc. pose proof (liveStore_allocated _ Hn) as Hp.
  unfold collectTelemetry, getTelemetryStoreForRead, getTelemetryStore.
  cbn [fst snd]. unfold liveStore in *. unfold deref in *.
  cbn [setManager storeObjects telemetryStoreDecoration _telemetryStore].
  fold store. fold i.
  change (findOrCreateMetrics key (getPartition i store)) with fc.
  destruct fc as [found partition]. cbn [fst snd].
  split; [reflexivity|].
  unfold releaseRead, writeStore, setManager, releaseSharedLock.
  cbn [storeObjects telemetryStoreDecoration _telemetryStore].
  now apply nth_replaceNth_same.
Qed.

Lemma setPartition_keyPartition {P : Platform} key p store :
  (0 < numPartitions store)%nat ->
  let store' := setPartition (partitionOf key store) p store in
  numPartitions store' = numPartitions store
  /\ getPartition (partitionOf key store') store' = p.
Proof.
  intros Hn store'.
  assert (Hlen : numPartitions store' = numPartitions store).
  { unfold store', numPartitions, setPartition. cbn [partitions].
    apply replaceNth_length. }
  split; [exact Hlen|].
  unfold partitionOf. rewrite Hlen.
  unfold store', getPartition, setPartition. cbn [partitions].
  apply nth_replaceNth_same. apply Nat.mod_upper_bound.
  unfold numPartitions in Hn. lia.
Qed.

Lemma modify_budget key f p : budget (modify key f p) = budget p.
Proof. reflexivity. Qed.

(** What one call of [collectTelemetry] does to the entry of its key. *)
Lemma collectTelemetry_spec {P : Platform} key d isExec svc :
  (0 < numPartitions (liveStore svc))%nat ->
  let r := collectTelemetry key d isExec svc in
  numPartitions (liveStore (snd r)) = numPartitions (liveStore svc)
  /\ budget (keyPartition key (snd r)) = budget (keyPartition key svc)
  /\ match storeLookup key (liveStore svc) with
     | Some m =>
         fst r = Ok tt
         /\ storeLookup key (liveStore (snd r)) = Some (updateMetrics d isExec m)
     | None =>
         if (entrySize key <=? budget (keyPartition key svc))%N
         then fst r = Ok tt
              /\ storeLookup key (liveStore (snd r))
                 = Some (updateMetrics d isExec newTelemetryMetrics)
         else fst r = Throw (TripwireAssertion 7064700)
              /\ storeLookup key (liveStore (snd r)) = None
     end.
Proof.
  intros Hn r.
  pose proof (collectTelemetry_liveStore key d isExec svc Hn) as [Hres Hlive].
  fold r in Hres, Hlive.
  pose proof (findOrCreateMetrics_spec key (keyPartition key svc)) as [Hb Hfc].
  unfold keyPartition in Hb, Hfc |- *. unfold storeLookup.
  set (fc := findOrCreateMetrics key
               (getPartition (partitionOf key (liveStore svc)) (liveStore svc))) in *.
  set (p' := match fst fc with
             | Ok _ => modify key (updateMetrics d isExec) (snd fc)
             | Throw _ => snd fc
             end) in *.
  pose proof (@setPartition_keyPartition _ key p' _ Hn) as [Hlen Hget].
  cbv zeta in Hlen, Hget. rewrite <- Hlive in Hlen, Hget.
  rewrite Hget, Hres. split; [exact Hlen|]. split.
  - subst p'. destruct (fst fc); [rewrite modify_budget|]; exact Hb.
  - destruct (lookup key (entries (getPartition _ (liveStore svc)))) as [m|].
    + destruct Hfc as [Hok Hl]. split; [exact Hok|].
      subst p'. rewrite Hok, lookup_modify, Hl. reflexivity.
    + destruct (entrySize key <=? _)%N; destruct Hfc as [Hok Hl];
        (split; [exact Hok|]); subst p'; rewrite Hok.
      * rewrite lookup_modify, Hl. reflexivity.
      * exact Hl.
Qed.

Lemma collectTelemetry_canRecord {P : Platform} key d isExec svc :
  canRecord key svc ->
  let r := collectTelemetry key d isExec svc in
  fst r = Ok tt
  /\ storeLookup key (liveStore (snd r))
     = Some (updateMetrics d isExec (previousMetrics key svc))
  /\ canRecord key (snd r).
Proof.
  intros [Hn Hfit] r.
  pose proof (collectTelemetry_spec key d isExec svc Hn) as (Hlen & Hb & Hs).
  fold r in Hlen, Hb, Hs. unfold previousMetrics, canRecord.
  destruct (storeLookup key (liveStore svc)) as [m|].
  - destruct Hs as [Hok Hl]. rewrite Hl, Hlen.
    repeat split; auto. left. discriminate.
  - destruct Hfit as [Hfit|Hfit]; [congruence|].
    apply N.leb_le in Hfit. rewrite Hfit in Hs. destruct Hs as [Hok Hl].
    rewrite Hl, Hlen. repeat split; auto. left. discriminate.
Qed.

(** C7.  Where an entry can be recorded, [collectTelemetry] succeeds and
    leaves under the key the previous metrics (fresh ones for a new key)
    changed as follows: the execution count is incremented and the planning
    latency aggregated only when [isExec] holds; execution latency, documents
    returned, documents scanned and keys scanned are aggregated; the last
    execution latency is stored as given.  Aggregating a value adds one to
    the count and the value to the sum and folds it into the bounds. *)
Theorem collectTelemetry_records (P : Platform) key d isExec svc :
  canRecord key svc ->
  fst (collectTelemetry key d isExec svc) = Ok tt
  /\ (exists m',
       storeLookup key (liveStore (snd (collectTelemetry key d isExec svc))) = Some m'
       /\ execCount m'
          = (if isExec then execCount (previousMetrics key svc) + 1
             else execCount (previousMetrics key svc))
       /\ queryOptMicros m'
          = (if isExec
             then AggregatedMetric.aggregate (planningTime d)
                    (queryOptMicros (previousMetrics key svc))
             else queryOptMicros (previousMetrics key svc))
       /\ queryExecMicros m'
          = AggregatedMetric.aggregate (executionTime d)
              (queryExecMicros (previousMetrics key svc))
       /\ docsReturned m'
          = AggregatedMetric.aggregate (nreturned d)
              (docsReturned (previousMetrics key svc))
       /\ docsScanned m'
          = AggregatedMetric.aggregate (value_or (docsExamined (additiveMetrics d)) 0)
              (docsScanned (previousMetrics key svc))
       /\ keysScanned m'
          = AggregatedMetric.aggregate (value_or (keysExamined (additiveMetrics d)) 0)
              (keysScanned (previousMetrics key svc))
       /\ lastExecutionMicros m' = executionTime d)
  /\ (forall v a,
       AggregatedMetric.count (AggregatedMetric.aggregate v a)
       = AggregatedMetric.count a + 1
       /\ AggregatedMetric.sum (AggregatedMetric.aggregate v a)
          = AggregatedMetric.sum a + v
       /\ (AggregatedMetric.count a = 0 ->
           AggregatedMetric.min (AggregatedMetric.aggregate v a) = v
           /\ AggregatedMetric.max (AggregatedMetric.aggregate v a) = v)
       /\ (AggregatedMetric.count a <> 0 ->
           AggregatedMetric.min (AggregatedMetric.aggregate v a)
           = Z.min (AggregatedMetric.min a) v
           /\ AggregatedMetric.max (AggregatedMetric.aggregate v a)
              = Z.max (AggregatedMetric.max a) v)).
Proof.
  intros Hc.
  destruct (collectTelemetry_canRecord d isExec Hc) as (Hok & Hl & _).
  split; [exact Hok|]. split.
  - eexists. split; [exact Hl|]. destruct isExec; simpl; repeat split.
  - intros v a. cbn. split; [reflexivity|]. split; [reflexivity|]. split.
    + intros Hz. rewrite Hz. split; reflexivity.
    + intros Hz. apply Z.eqb_neq in Hz. rewrite Hz. split; reflexivity.
Qed.

Lemma collectTelemetry_records_witness :
  fst (collectTelemetry (P := samplePlatform) sampleMatchKey sampleOpDebug true
         (sampleService 100000 4 5)) = Ok tt.
Proof.
  apply (@collectTelemetry_records samplePlatform sampleMatchKey sampleOpDebug true
           (sampleService 100000 4 5)).
  split; [vm_compute; lia | right; vm_compute; discriminate].
Defined.

(** C9.  A plan-only observation ([isExec] false) still aggregates documents
    returned, documents scanned, keys scanned and the execution latency, each
    aggregator counting one more observation, and overwrites the last
    execution latency; the execution count and the planning-latency
    aggregator stay as they were. *)
Theorem plan_only_observation_still_records (P : Platform) key d svc :
  canRecord key svc ->
  exists m',
    storeLookup key (liveStore (snd (collectTelemetry key d false svc))) = Some m'
    /\ execCount m' = execCount (previousMetrics key svc)
    /\ queryOptMicros m' = queryOptMicros (previousMetrics key svc)
    /\ docsReturned m'
       = AggregatedMetric.aggregate (nreturned d)
           (docsReturned (previousMetrics key svc))
    /\ docsScanned m'
       = AggregatedMetric.aggregate (value_or (docsExamined (additiveMetrics d)) 0)
           (docsScanned (previousMetrics key svc))
    /\ keysScanned m'
       = AggregatedMetric.aggregate (value_or (keysExamined (additiveMetrics d)) 0)
           (keysScanned (previousMetrics key svc))
    /\ queryExecMicros m'
       = AggregatedMetric.aggregate (executionTime d)
           (queryExecMicros (previousMetrics key svc))
    /\ lastExecutionMicros m' = executionTime d
    /\ AggregatedMetric.count (docsReturned m')
       = AggregatedMetric.count (docsReturned (previousMetrics key svc)) + 1
    /\ AggregatedMetric.count (docsScanned m')
       = AggregatedMetric.count (docsScanned (previousMetrics key svc)) + 1
    /\ AggregatedMetric.count (keysScanned m')
       = AggregatedMetric.count (keysScanned (previousMetrics key svc)) + 1
    /\ AggregatedMetric.count (queryExecMicros m')
       = AggregatedMetric.count (queryExecMicros (previousMetrics key svc)) + 1.
Proof.
  intros Hc.
  destruct (collectTelemetry_canRecord d false Hc) as (_ & Hl & _).
  eexists. split; [exact Hl|]. simpl. repeat split.
Qed.

Lemma plan_only_observation_still_records_witness :
  exists m',
    storeLookup (P := samplePlatform) sampleMatchKey
      (liveStore (snd (collectTelemetry (P := samplePlatform) sampleMatchKey
                         sampleOpDebug false (sampleService 100000 4 5))))
    = Some m'
    /\ execCount m' = 0 /\ lastExecutionMicros m' = 40
    /\ AggregatedMetric.count (docsReturned m') = 1.
Proof.
  destruct (@plan_only_observation_still_records samplePlatform sampleMatchKey
              sampleOpDebug (sampleService 100000 4 5))
    as (m' & Hl & He & _ & _ & _ & _ & _ & Hlast & Hd & _).
  - split; [vm_compute; lia | right; vm_compute; discriminate].
  - exists m'. repeat split; assumption.
Defined.

Lemma freshEntryLost_iff_too_big {P : Platform} key svc :
  freshEntryLost key svc
  <-> storeLookup key (liveStore svc) = None
      /\ (budget (keyPartition key svc) < entrySize key)%N.
Proof.
  unfold freshEntryLost. split; intros [Ha Hl]; (split; [exact Ha|]).
  - destruct (N.le_gt_cases (entrySize key) (budget (keyPartition key svc)))
      as [Hfit|Hbig]; [|exact Hbig].
    rewrite (lookup_put_fits key newTelemetryMetrics _ Hfit) in Hl. discriminate.
  - unfold put; cbn [entries].
    now rewrite (evict_too_big (remove key (entries (keyPartition key svc)))
                   (key, newTelemetryMetrics) Hl).
Qed.

(** C5.  In a store with partitions, [collectTelemetry] fails exactly when
    it has to create the entry and the entry it put cannot be found again,
    which is exactly when one fresh entry exceeds the sub-budget of its
    partition.  The failure is the tripwire assertion 7064700 and nothing
    else: it is not a recoverable user error, and no metrics are written for
    the key. *)
Theorem lost_fresh_entry_trips_assertion (P : Platform) key d isExec svc :
  (0 < numPartitions (liveStore svc))%nat ->
  (freshEntryLost key svc
   <-> fst (collectTelemetry key d isExec svc) = Throw (TripwireAssertion 7064700))
  /\ (freshEntryLost key svc
      <-> storeLookup key (liveStore svc) = None
          /\ (budget (keyPartition key svc) < entrySize key)%N)
  /\ (forall e,
      fst (collectTelemetry key d isExec svc) = Throw e ->
      e = TripwireAssertion 7064700
      /\ isRecoverable e = false
      /\ storeLookup key (liveStore (snd (collectTelemetry key d isExec svc))) = None).
Proof.
  intros Hn.
  pose proof (collectTelemetry_spec key d isExec svc Hn) as (_ & _ & Hs).
  cbv zeta in Hs. split; [|split].
  - rewrite freshEntryLost_iff_too_big.
    destruct (storeLookup key (liveStore svc)) as [m|].
    + destruct Hs as [Hok _]. rewrite Hok.
      split; [intros [? _]|]; discriminate.
    + destruct (entrySize key <=? budget (keyPartition key svc))%N eqn:Hfit;
        destruct Hs as [Hok _]; rewrite Hok.
      * apply N.leb_le in Hfit. split; [intros [_ ?]; lia | discriminate].
      * apply N.leb_gt in Hfit. split; auto.
  - apply freshEntryLost_iff_too_big.
  - intros e He.
    destruct (storeLookup key (liveStore svc)) as [m|].
    + destruct Hs as [Hok _]. congruence.
    + destruct (entrySize key <=? budget (keyPartition key svc))%N;
        destruct Hs as [Hok Hl]; [congruence|].
      rewrite Hok in He. inversion He; subst. auto.
Qed.

(** A store of 100 bytes in 4 partitions cannot hold one entry. *)
Lemma lost_fresh_entry_trips_assertion_witness :
  fst (collectTelemetry (P := samplePlatform) sampleMatchKey sampleOpDebug true
         (sampleService 100 4 5))
  = Throw (TripwireAssertion 7064700).
Proof.
  apply (proj1 (@lost_fresh_entry_trips_assertion samplePlatform sampleMatchKey
                  sampleOpDebug true (sampleService 100 4 5)
                  ltac:(vm_compute; lia))).
  split; reflexivity.
Defined.

(** ** Recording the same statistics repeatedly *)

Lemma iter_shift {A : Type} (f : A -> A) (n : nat) (x : A) :
  Nat.iter n f (f x) = f (Nat.iter n f x).
Proof. induction n as [|n IH]; simpl; [reflexivity|now rewrite IH]. Qed.

Lemma collectTelemetryTimes_canRecord {P : Platform} key d isExec n : forall svc,
  canRecord key svc -> canRecord key (collectTelemetryTimes n key d isExec svc).
Proof.
  induction n as [|n IH]; intros svc Hc; [exact Hc|].
  apply IH. apply (collectTelemetry_canRecord d isExec Hc).
Qed.

Lemma collectTelemetryTimes_lookup {P : Platform} key d isExec n : forall svc,
  canRecord key svc ->
  storeLookup key (liveStore (collectTelemetryTimes (S n) key d isExec svc))
  = Some (Nat.iter (S n) (updateMetrics d isExec) (previousMetrics key svc)).
Proof.
  induction n as [|n IH]; intros svc Hc;
    destruct (collectTelemetry_canRecord d isExec Hc) as (_ & Hl & Hc').
  - exact Hl.
  - change (collectTelemetryTimes (S (S n)) key d isExec svc)
      with (collectTelemetryTimes (S n) key d isExec
              (snd (collectTelemetry key d isExec svc))).
    rewrite (IH _ Hc'). unfold previousMetrics at 1. rewrite Hl.
    now rewrite iter_shift.
Qed.

Lemma aggregate_iter v n :
  let a := Nat.iter n (AggregatedMetric.aggregate v) AggregatedMetric.zero in
  AggregatedMetric.count a = Z.of_nat n
  /\ AggregatedMetric.sum a = Z.of_nat n * v
  /\ ((0 < n)%nat -> AggregatedMetric.min a = v /\ AggregatedMetric.max a = v).
Proof.
  induction n as [|n (Hc & Hs & Hm)]; cbv zeta.
  - repeat split; try reflexivity; lia.
  - change (Nat.iter (S n) (AggregatedMetric.aggregate v) AggregatedMetric.zero)
      with (AggregatedMetric.aggregate v
              (Nat.iter n (AggregatedMetric.aggregate v) AggregatedMetric.zero)).
    cbv zeta in Hc, Hs, Hm.
    set (a := Nat.iter n (AggregatedMetric.aggregate v) AggregatedMetric.zero) in *.
    unfold AggregatedMetric.aggregate.
    cbn [AggregatedMetric.count AggregatedMetric.sum AggregatedMetric.min
         AggregatedMetric.max].
    rewrite Hc, Hs. split; [lia|]. split; [lia|]. intros _.
    destruct n as [|n].
    + split; reflexivity.
    + replace (Z.of_nat (S n) =? 0) with false by (symmetry; apply Z.eqb_neq; lia).
      destruct Hm as [Hmin Hmax]; [lia|].
      rewrite Hmin, Hmax, Z.min_id, Z.max_id. split; reflexivity.
Qed.

Lemma aggregate_constant v n :
  sawConstant (S n) v
    (Nat.iter (S n) (AggregatedMetric.aggregate v) AggregatedMetric.zero).
Proof.
  destruct (aggregate_iter v (S n)) as (Hc & Hs & Hm).
  destruct Hm as [Hmin Hmax]; [lia|]. repeat split; assumption.
Qed.

Lemma updateMetrics_executed d m :
  updateMetrics d true m =
  {| execCount := execCount m + 1;
     lastExecutionMicros := executionTime d;
     queryOptMicros :=
       AggregatedMetric.aggregate (planningTime d) (queryOptMicros m);
     queryExecMicros :=
       AggregatedMetric.aggregate (executionTime d) (queryExecMicros m);
     docsReturned := AggregatedMetric.aggregate (nreturned d) (docsReturned m);
     docsScanned :=
       AggregatedMetric.aggregate
         (value_or (docsExamined (additiveMetrics d)) 0) (docsScanned m);
     keysScanned :=
       AggregatedMetric.aggregate
         (value_or (keysExamined (additiveMetrics d)) 0) (keysScanned m) |}.
Proof. reflexivity. Qed.

(** Iterating the writes of an executed observation moves each field on its
    own. *)
Lemma updateMetrics_iter d n m :
  let m' := Nat.iter n (updateMetrics d true) m in
  execCount m' = execCount m + Z.of_nat n
  /\ queryOptMicros m'
     = Nat.iter n (AggregatedMetric.aggregate (planningTime d)) (queryOptMicros m)
  /\ queryExecMicros m'
     = Nat.iter n (AggregatedMetric.aggregate (executionTime d)) (queryExecMicros m)
  /\ docsReturned m'
     = Nat.iter n (AggregatedMetric.aggregate (nreturned d)) (docsReturned m)
  /\ docsScanned m'
     = Nat.iter n (AggregatedMetric.aggregate
                     (value_or (docsExamined (additiveMetrics d)) 0)) (docsScanned m)
  /\ keysScanned m'
     = Nat.iter n (AggregatedMetric.aggregate
                     (value_or (keysExamined (additiveMetrics d)) 0)) (keysScanned m).
Proof.
  induction n as [|n (He & Ho & Hx & Hr & Hs & Hk)].
  - simpl. repeat split; lia.
  - cbv zeta.
    change (Nat.iter (S n) (updateMetrics d true) m)
      with (updateMetrics d true (Nat.iter n (updateMetrics d true) m)).
    cbv zeta in He, Ho, Hx, Hr, Hs, Hk.
    rewrite updateMetrics_executed.
    cbn [execCount queryOptMicros queryExecMicros docsReturned docsScanned keysScanned].
    rewrite He, Ho, Hx, Hr, Hs, Hk.
    repeat split; try reflexivity. lia.
Qed.

(** C8.  Starting from a store where the key is absent and one entry for it
    fits, [n] executed observations ([n] at least one) of the same
    statistics all succeed and leave under the key an execution count of [n]
    and, for every metric, an aggregator with count [n], sum [n] times the
    value, and minimum and maximum equal to the value. *)
Theorem constant_statistics_recorded_n_times (P : Platform) key d svc n :
  (0 < numPartitions (liveStore svc))%nat ->
  storeLookup key (liveStore svc) = None ->
  (entrySize key <= budget (keyPartition key svc))%N ->
  (0 < n)%nat ->
  (forall k, (k < n)%nat ->
     fst (collectTelemetry key d true (collectTelemetryTimes k key d true svc))
     = Ok tt)
  /\ exists m,
    storeLookup key (liveStore (collectTelemetryTimes n key d true svc)) = Some m
    /\ execCount m = Z.of_nat n
    /\ sawConstant n (planningTime d) (queryOptMicros m)
    /\ sawConstant n (executionTime d) (queryExecMicros m)
    /\ sawConstant n (nreturned d) (docsReturned m)
    /\ sawConstant n (value_or (docsExamined (additiveMetrics d)) 0) (docsScanned m)
    /\ sawConstant n (value_or (keysExamined (additiveMetrics d)) 0) (keysScanned m).
Proof.
  intros Hn Habsent Hfit Hpos.
  destruct n as [|n]; [lia|].
  assert (Hc : canRecord key svc) by (split; auto).
  split.
  { intros k _.
    apply (collectTelemetry_canRecord d true
             (collectTelemetryTimes_canRecord d true k Hc)). }
  eexists. split; [apply (collectTelemetryTimes_lookup d true n Hc)|].
  unfold previousMetrics. rewrite Habsent.
  destruct (updateMetrics_iter d (S n) newTelemetryMetrics)
    as (He & Ho & Hx & Hr & Hs & Hk).
  cbv zeta in He, Ho, Hx, Hr, Hs, Hk.
  rewrite He, Ho, Hx, Hr, Hs, Hk.
  split; [simpl execCount; lia|].
  repeat (split; [apply aggregate_constant|]). apply aggregate_constant.
Qed.

Lemma constant_statistics_recorded_n_times_witness :
  exists m,
    storeLookup (P := samplePlatform) sampleMatchKey
      (liveStore (collectTelemetryTimes (P := samplePlatform) 3 sampleMatchKey
                    sampleOpDebug true (sampleService 100000 4 5))) = Some m
    /\ execCount m = 3
    /\ sawConstant 3 40 (queryExecMicros m).
Proof.
  destruct (@constant_statistics_recorded_n_times samplePlatform sampleMatchKey
              sampleOpDebug (sampleService 100000 4 5) 3
              ltac:(vm_compute; lia) eq_refl ltac:(vm_compute; discriminate)
              ltac:(lia))
    as (_ & m & Hl & He & _ & Hx & _).
  exists m. repeat split; solve [exact Hl | exact He | apply Hx].
Defined.

(** ** The store manager *)

Lemma makeTelemetryStore_shape cacheSize n :
  size (makeTelemetryStore cacheSize n) = cacheSize
  /\ numPartitions (makeTelemetryStore cacheSize n) = n
  /\ storeIsEmpty (makeTelemetryStore cacheSize n).
Proof.
  unfold makeTelemetryStore, numPartitions, storeIsEmpty; cbn [size partitions].
  split; [reflexivity|]. split; [apply repeat_length|].
  apply Forall_forall. intros p Hp. apply repeat_spec in Hp. now subst p.
Qed.

Lemma getTelemetryStore_lockShared (m : TelemetryStoreManager) :
  getTelemetryStore m
  = ((_telemetryStore m, fst (lockShared (_telemetryStore m) m)),
     snd (lockShared (_telemetryStore m) m)).
Proof. reflexivity. Qed.





(** C4, evaluated where the code departs from it.  A call of
    [getTelemetryStore] reads the store pointer 0; a reset replaces store 0
    by store 1 and hands store 0 to its caller; the call then takes the
    shared lock.  The reader now holds a read guard together with the pointer
    to the replaced store, while the live store is store 1, and a further
    reset waits for this reader.  Its recording goes to store 0; when it has
    released, the reset that waited hands back store 1, which never saw the
    recording: for the duration of its access the reader did not observe the
    instance that this reset replaces. *)
Theorem reader_can_hold_a_replaced_store :
  exists t1 t2 : Callers,
    run sampleCallers [ReadPointer 0; ResetStore 0; LockShared 0 0] t1
    /\ outstandingHolds (service t1) = [(0%nat, 0%nat)]
    /\ livePointer (service t1) = 1%nat
    /\ resetTelemetryStore (service t1) = None
    /\ run t1 [Access 0 sampleRecording; ReleaseRead 0; ResetStore 1] t2
    /\ storeLookup (P := samplePlatform) sampleMatchKey (deref (service t2) 0)
       = Some newTelemetryMetrics
    /\ storeLookup (P := samplePlatform) sampleMatchKey (deref (service t2) 1)
       = None.
Proof.
  eexists. eexists. split.
  { eapply run_cons; [exact (step_read_pointer sampleCallers)|].
    eapply run_cons; [apply step_reset; reflexivity|].
    eapply run_cons;
      [eapply step_lock; [left; reflexivity | reflexivity]|].
    apply run_nil. }
  split; [reflexivity|]. split; [reflexivity|]. split; [reflexivity|].
  split.
  { eapply run_cons;
      [apply step_access with (p := 0%nat); left; reflexivity|].
    eapply run_cons;
      [apply step_release with (p := 0%nat); left; reflexivity|].
    eapply run_cons; [apply step_reset; reflexivity|].
    apply run_nil. }
  split; reflexivity.
Qed.

(** With the lock taken first the reader is given the live store. *)
Example lock_first_reader_holds_the_live_store :
  exists t1 : Callers,
    run sampleCallers [ResetStore 0; AcquireRead 1 0] t1
    /\ outstandingHolds (service t1) = [(0%nat, 1%nat)]
    /\ livePointer (service t1) = 1%nat.
Proof.
  eexists. split.
  { eapply run_cons; [apply step_reset; reflexivity|].
    eapply run_cons; [apply step_acquire; reflexivity|].
    apply run_nil. }
  split; reflexivity.
Qed.


(** Taking a shared hold and releasing it leaves the live pointer and the
    holds of the other readers as they were. *)
Lemma releaseRead_getTelemetryStoreForRead svc :
  wellFormed svc ->
  let svc' := releaseRead (snd (fst (getTelemetryStoreForRead svc)))
                          (snd (getTelemetryStoreForRead svc)) in
  livePointer svc' = livePointer svc
  /\ outstandingHolds svc' = outstandingHolds svc.
Proof.
  intros [_ Hh]. unfold releaseRead, getTelemetryStoreForRead, getTelemetryStore,
    releaseSharedLock, livePointer, outstandingHolds. cbn.
  split; [reflexivity|]. rewrite Nat.eqb_refl. cbn.
  destruct (telemetryStoreDecoration svc) as [ptr [next holds]]. cbn in *.
  induction holds as [|[g p] holds IH]; [reflexivity|]. cbn.
  destruct (Hh g p (or_introl eq_refl)) as [_ Hlt].
  replace (Nat.eqb g next) with false by (symmetry; apply Nat.eqb_neq; lia).
  cbn. f_equal. apply IH. intros g' p' Hin. apply Hh. now right.
Qed.



(* ================================================================== *)
(** * Further properties of the code *)

(** ** The key builder and the sampling gate *)

Lemma shouldCollectTelemetry_state {P : Platform} r c svc :
  refusedUpfront r = false ->
  snd (shouldCollectTelemetry r c svc) = snd (shouldCollect svc)
  /\ (fst (shouldCollect svc) = false ->
      fst (shouldCollectTelemetry r c svc) = Ok None).
Proof.
  destruct r as [request|request collection]; simpl; intros Hr;
    apply orb_false_iff in Hr as [He Hf];
    [unfold shouldCollectTelemetry_Aggregate | unfold shouldCollectTelemetry_Find];
    rewrite He, Hf; destruct (shouldCollect svc) as [[|] s]; simpl;
    (split; [reflexivity|]); intros H; discriminate || reflexivity.
Qed.

Lemma shouldCollectTelemetry_refused_upfront {P : Platform} r c svc :
  refusedUpfront r = true -> shouldCollectTelemetry r c svc = (Ok None, svc).
Proof.
  destruct r as [request|request collection]; simpl; intros Hr;
    apply orb_true_iff in Hr as [He|Hf].
  - now apply shouldCollectTelemetry_Aggregate_encrypted.
  - now apply shouldCollectTelemetry_Aggregate_state_collection.
  - now apply shouldCollectTelemetry_Find_encrypted.
  - now apply shouldCollectTelemetry_Find_state_collection.
Qed.

(** X1.  A request with encryption information, or on an FLE2 state
    collection, is turned away before the sampling gate is asked: the
    service context, the rate limiter included, is left as it was.  Every
    other request leaves the service in the state the sampling check left
    it, whether it then gets a key or the key builder raises; and it gets
    nothing when the check says no. *)
Theorem sampling_is_asked_after_the_upfront_checks (P : Platform) (r : Request)
    (c : OperationContext) (svc : ServiceContext) :
  (refusedUpfront r = true -> shouldCollectTelemetry r c svc = (Ok None, svc))
  /\ (refusedUpfront r = false ->
      snd (shouldCollectTelemetry r c svc) = snd (shouldCollect svc)
      /\ (fst (shouldCollect svc) = false ->
          fst (shouldCollectTelemetry r c svc) = Ok None)).
Proof.
  split; [apply shouldCollectTelemetry_refused_upfront
         | apply shouldCollectTelemetry_state].
Qed.

(** A request whose key cannot be built has used up one sample of the window
    all the same. *)
Lemma sampling_is_asked_after_the_upfront_checks_witness :
  fst (shouldCollectTelemetry (P := samplePlatform)
         (AggregateRequest (sampleAggregate [[("$limit", NumberVal 3)]]))
         sampleContext (sampleService 100000 4 5))
  = Throw (UserAssertion (Location 10065))
  /\ currentCount
       (telemetryRateLimiter
          (snd (shouldCollectTelemetry (P := samplePlatform)
                  (AggregateRequest (sampleAggregate [[("$limit", NumberVal 3)]]))
                  sampleContext (sampleService 100000 4 5)))) = 1.
Proof.
  split; [reflexivity|].
  rewrite (proj1 (proj2 (sampling_is_asked_after_the_upfront_checks samplePlatform
                           (AggregateRequest
                              (sampleAggregate [[("$limit", NumberVal 3)]]))
                           sampleContext (sampleService 100000 4 5)) eq_refl)).
  reflexivity.
Defined.

Lemma shouldCollect_frame svc :
  storeObjects (snd (shouldCollect svc)) = storeObjects svc
  /\ telemetryStoreDecoration (snd (shouldCollect svc)) = telemetryStoreDecoration svc.
Proof.
  unfold shouldCollect. destruct (isTelemetryEnabled svc); simpl; [|auto].
  destruct (handleRequestSlidingWindow _) as [[|] r]; simpl; auto.
Qed.

(** X2.  No overload of [shouldCollectTelemetry] touches the store or its
    manager: the allocated store objects, the live pointer and the lock
    state are the same after the call, whatever its outcome. *)
Theorem shouldCollectTelemetry_leaves_the_store_alone (P : Platform)
    (r : Request) (c : OperationContext) (key : BSONObj) (svc : ServiceContext) :
  storeObjects (snd (shouldCollectTelemetry r c svc)) = storeObjects svc
  /\ telemetryStoreDecoration (snd (shouldCollectTelemetry r c svc))
     = telemetryStoreDecoration svc
  /\ storeObjects (snd (shouldCollectTelemetry_Key c key svc)) = storeObjects svc
  /\ telemetryStoreDecoration (snd (shouldCollectTelemetry_Key c key svc))
     = telemetryStoreDecoration svc.
Proof.
  destruct (shouldCollect_frame svc) as [Ho Hm].
  assert (Hreq : storeObjects (snd (shouldCollectTelemetry r c svc)) = storeObjects svc
                 /\ telemetryStoreDecoration (snd (shouldCollectTelemetry r c svc))
                    = telemetryStoreDecoration svc).
  { destruct (refusedUpfront r) eqn:Hr.
    - rewrite (shouldCollectTelemetry_refused_upfront r c svc Hr).
      auto.
    - destruct (shouldCollectTelemetry_state r c svc Hr) as [-> _]. auto. }
  destruct Hreq as [H1 H2]. repeat split; try assumption;
    unfold shouldCollectTelemetry_Key; destruct (isEmpty key); simpl; auto;
    destruct (shouldCollect svc) as [[|] s]; simpl in *; assumption.
Qed.

Lemma shouldCollectTelemetry_key_granted {P : Platform} r c svc k :
  fst (shouldCollectTelemetry r c svc) = Ok (Some k) ->
  refusedUpfront r = false /\ fst (shouldCollect svc) = true.
Proof.
  intros H. destruct (refusedUpfront r) eqn:Hr.
  - rewrite (shouldCollectTelemetry_refused_upfront r c svc Hr) in H. discriminate.
  - split; [reflexivity|].
    destruct (fst (shouldCollect svc)) eqn:Hs; [reflexivity|].
    rewrite (proj2 (shouldCollectTelemetry_state r c svc Hr) Hs) in H. discriminate.
Qed.

(** X3.  An aggregate request that has passed the early returns and the
    sampling gate is never answered with "no key": nothing raises into the
    handler of the [try] block.  When the first element of some stage is no
    document the call raises assertion 10065, which is not caught, after the
    sampling slot has been taken; otherwise it returns a key. *)
Theorem granted_aggregate_gets_a_key_or_raises (P : Platform)
    (request : AggregateCommandRequest.t) (c : OperationContext)
    (svc : ServiceContext) :
  refusedUpfront (AggregateRequest request) = false ->
  fst (shouldCollect svc) = true ->
  (stagesAreDocuments (AggregateCommandRequest.getPipeline request) = false ->
   shouldCollectTelemetry_Aggregate request c svc
   = (Throw (UserAssertion (Location 10065)), snd (shouldCollect svc)))
  /\ (stagesAreDocuments (AggregateCommandRequest.getPipeline request) = true ->
      exists k, fst (shouldCollectTelemetry_Aggregate request c svc) = Ok (Some k))
  /\ fst (shouldCollectTelemetry_Aggregate request c svc) <> Ok None.
Proof.
  intros Hr Hs.
  pose proof (shouldCollectTelemetry_Aggregate_granted request c svc Hr Hs) as Hg.
  pose proof (proj1 (shouldCollectTelemetry_state (AggregateRequest request) c svc Hr))
    as Hstate.
  cbn [shouldCollectTelemetry] in Hstate.
  pose proof (redactPipeline_outcome (AggregateCommandRequest.getPipeline request))
    as Ho.
  destruct (stagesAreDocuments _).
  - destruct Ho as [stages Hstages]. rewrite Hstages in Hg. cbn in Hg.
    split; [discriminate|]. split; [eauto|]. now rewrite Hg.
  - rewrite Ho in Hg. cbn in Hg.
    split; [|split; [discriminate | now rewrite Hg]].
    intros _. rewrite <- Hstate. now apply pair_of_fst.
Qed.

(** The second stage is a [$limit] with a number; the first, a [$match] on a
    string, would have been given its part of the key. *)
Lemma granted_aggregate_gets_a_key_or_raises_witness :
  shouldCollectTelemetry_Aggregate (P := samplePlatform)
    (sampleAggregate [[("$match", ObjectVal [("a", StringVal "x")])];
                      [("$limit", NumberVal 3)];
                      [("$match", ObjectVal [("b", NumberVal 2)])]])
    sampleContext (sampleService 100000 4 5)
  = (Throw (UserAssertion (Location 10065)),
     snd (shouldCollect (sampleService 100000 4 5))).
Proof.
  apply (proj1 (@granted_aggregate_gets_a_key_or_raises samplePlatform
                  (sampleAggregate [[("$match", ObjectVal [("a", StringVal "x")])];
                                    [("$limit", NumberVal 3)];
                                    [("$match", ObjectVal [("b", NumberVal 2)])]])
                  sampleContext (sampleService 100000 4 5) eq_refl eq_refl)).
  reflexivity.
Defined.

Lemma redactPipeline_layout (pipeline : list BSONObj) :
  forall stages,
    redactPipeline pipeline = Ok stages <-> Forall2 stageEntry pipeline stages.
Proof.
  induction pipeline as [|stage tl IH]; intros stages; simpl.
  - split.
    + intros H. inversion H. constructor.
    + intros H. now inversion H.
  - split.
    + intros H. bind_inv H. bind_inv H. inversion H; subst.
      constructor; [|now apply IH]. exists a. auto.
    + intros H. inversion H as [|? out ? outs (o & Ho & ->) Htl]; subst.
      apply IH in Htl. now rewrite Ho, Htl.
Qed.

(** X4.  An aggregate request is given exactly this key, and only when it
    passes the early returns and the sampling gate and every stage's first
    element is a document or an array: the document
    [pipeline, namespace, readConcern?, applicationName?] in this order, whose
    pipeline array has one element per stage of the request, in order, each
    named "stage" and holding a single field, the name of the stage's first
    element with its argument redacted. *)
Theorem aggregate_key_layout (P : Platform) (request : AggregateCommandRequest.t)
    (c : OperationContext) (svc : ServiceContext) (k : BSONObj) :
  fst (shouldCollectTelemetry_Aggregate request c svc) = Ok (Some k)
  <-> getsKey (AggregateRequest request) svc
      /\ exists stages,
          k = ("pipeline", ArrayVal stages)
              :: ("namespace",
                  StringVal (toString (AggregateCommandRequest.getNamespace request)))
              :: match AggregateCommandRequest.getReadConcern request with
                 | Some rc => [("readConcern", ObjectVal rc)]
                 | None => []
                 end
              ++ match getClientMetadata c with
                 | Some metadata =>
                     [("applicationName", StringVal (getApplicationName metadata))]
                 | None => []
                 end
          /\ List.length stages
             = List.length (AggregateCommandRequest.getPipeline request)
          /\ Forall2 stageEntry (AggregateCommandRequest.getPipeline request) stages.
Proof.
  split.
  - intros H.
    destruct (shouldCollectTelemetry_key_granted (AggregateRequest request) c svc H)
      as [Hr Hs].
    apply pair_of_fst, shouldCollectTelemetry_Aggregate_key in H
      as (stages & Hp & ->).
    pose proof (redactPipeline_outcome (AggregateCommandRequest.getPipeline request))
      as Ho.
    apply redactPipeline_layout in Hp as Hl.
    split.
    + split; [exact Hr|]. split; [exact Hs|].
      destruct (stagesAreDocuments _); [reflexivity|]. congruence.
    + exists stages. split; [reflexivity|].
      split; [symmetry; eapply Forall2_length; exact Hl | exact Hl].
  - intros ((Hr & Hs & _) & stages & -> & _ & Hl).
    rewrite (shouldCollectTelemetry_Aggregate_granted request c svc Hr Hs).
    apply redactPipeline_layout in Hl. now rewrite Hl.
Qed.

(** A [$match] on a string and a [$match] on a nested comparison. *)
Lemma aggregate_key_layout_witness :
  getsKey (P := samplePlatform)
    (AggregateRequest
       (sampleAggregate
          [[("$match", ObjectVal [("a", StringVal "x")])];
           [("$match", ObjectVal [("b", ObjectVal [("$gt", NumberVal 5)])])]]))
    (sampleService 100000 4 5)
  /\ exists stages,
      [("pipeline",
        ArrayVal
          [("stage", ObjectVal [("$match", ObjectVal [("a", StringVal "###")])]);
           ("stage",
            ObjectVal [("$match",
                        ObjectVal [("b", ObjectVal [("$gt", StringVal "###")])])])]);
       ("namespace", StringVal "db.c");
       ("applicationName", StringVal "shell")]
      = ("pipeline", ArrayVal stages)
        :: [("namespace", StringVal "db.c");
            ("applicationName", StringVal "shell")]
      /\ List.length stages = 2%nat.
Proof.
  destruct (proj1 (@aggregate_key_layout samplePlatform
                     (sampleAggregate
                        [[("$match", ObjectVal [("a", StringVal "x")])];
                         [("$match",
                           ObjectVal [("b", ObjectVal [("$gt", NumberVal 5)])])]])
                     sampleContext (sampleService 100000 4 5) _) eq_refl)
    as (Hg & stages & Hk & Hlen & _).
  split; [exact Hg|]. exists stages. split; [exact Hk | exact Hlen].
Defined.

Lemma redactFindEntries_layout (findBson : BSONObj) :
  forall entries,
    redactFindEntries findBson = Ok entries
    <-> Forall2 findEntryKey findBson entries.
Proof.
  induction findBson as [|findEntry tl IH]; intros entries; simpl.
  - split.
    + intros H. inversion H. constructor.
    + intros H. now inversion H.
  - split.
    + intros H. bind_inv H. bind_inv H. inversion H; subst.
      constructor; [|now apply IH]. unfold findEntryKey.
      destruct (isABSONObj findEntry).
      * bind_inv Ha. inversion Ha; subst. split; [reflexivity|]. eauto.
      * inversion Ha; subst. split; reflexivity.
    + intros H. inversion H as [|? [n v] ? outs [Hn Hv] Htl]; subst.
      apply IH in Htl. rewrite Htl. unfold fieldNameStringData, value in *.
      simpl in Hn, Hv. subst n.
      destruct (isABSONObj findEntry).
      * destruct Hv as (o & -> & ->). reflexivity.
      * subst v. reflexivity.
Qed.

(** X5.  A find request is given a key exactly when it passes the early
    returns and the sampling gate, and the key is then the document
    [find, namespace, readConcern?, applicationName?] in this order.  Its find
    sub-document has the fields of the serialized command, under the same
    names and in the same order; a field that is a document or an array has
    its redaction as value, and the value of any other field is replaced by
    the string "###", whatever it was. *)
Theorem find_key_layout (P : Platform) (request : FindCommandRequest.t)
    (collection : NamespaceString) (c : OperationContext)
    (svc : ServiceContext) (k : BSONObj) :
  fst (shouldCollectTelemetry_Find request collection c svc) = Ok (Some k)
  <-> getsKey (FindRequest request collection) svc
      /\ exists entries,
          k = ("find", ObjectVal entries)
              :: ("namespace", StringVal (toString collection))
              :: match FindCommandRequest.getReadConcern request with
                 | Some rc => [("readConcern", ObjectVal rc)]
                 | None => []
                 end
              ++ match getClientMetadata c with
                 | Some metadata =>
                     [("applicationName", StringVal (getApplicationName metadata))]
                 | None => []
                 end
          /\ map fst entries = map fst (FindCommandRequest.toBSON request)
          /\ Forall2 findEntryKey (FindCommandRequest.toBSON request) entries.
Proof.
  split.
  - intros H.
    destruct (shouldCollectTelemetry_key_granted (FindRequest request collection)
                c svc H) as [Hr Hs].
    apply pair_of_fst, shouldCollectTelemetry_Find_key in H
      as (entries & Hp & ->).
    apply redactFindEntries_layout in Hp as Hl.
    split; [split; [exact Hr | split; [exact Hs | exact I]]|].
    exists entries. split; [reflexivity|]. split; [|exact Hl].
    clear Hp. induction Hl as [|e out tl outs [Hn _] _ IH]; [reflexivity|].
    simpl. unfold fieldNameStringData in Hn. now rewrite Hn, IH.
  - intros ((Hr & Hs & _) & entries & -> & _ & Hl).
    destruct (shouldCollectTelemetry_Find_granted request collection c svc Hr Hs)
      as (entries' & He & ->).
    apply redactFindEntries_layout in Hl.
    assert (Heq : entries' = entries) by congruence. now subst entries'.
Qed.

(** A find command with a string in its filter and an array of numbers. *)
Lemma find_key_layout_witness :
  fst (shouldCollectTelemetry_Find (P := samplePlatform)
         (sampleFind [("find", StringVal "c");
                      ("filter",
                       ObjectVal [("name", StringVal "bob");
                                  ("a", ObjectVal
                                          [("$in", ArrayVal [("0", NumberVal 1);
                                                             ("1", NumberVal 2)])])]);
                      ("limit", NumberVal 4)])
         {| ns := "db.c" |} sampleContext (sampleService 100000 4 5))
  = Ok (Some
          [("find",
            ObjectVal
              [("find", StringVal "###");
               ("filter",
                ObjectVal [("name", StringVal "###");
                           ("a", ObjectVal
                                   [("$in", ArrayVal [("0", StringVal "###");
                                                      ("1", StringVal "###")])])]);
               ("limit", StringVal "###")]);
           ("namespace", StringVal "db.c");
           ("applicationName", StringVal "shell")]).
Proof.
  apply (proj2 (@find_key_layout samplePlatform
                  (sampleFind [("find", StringVal "c");
                               ("filter",
                                ObjectVal
                                  [("name", StringVal "bob");
                                   ("a", ObjectVal
                                           [("$in", ArrayVal [("0", NumberVal 1);
                                                              ("1", NumberVal 2)])])]);
                               ("limit", NumberVal 4)])
                  {| ns := "db.c" |} sampleContext (sampleService 100000 4 5) _)).
  split; [split; [reflexivity | split; [reflexivity | exact I]]|].
  eexists. split; [reflexivity|]. split; [reflexivity|].
  repeat constructor; cbn; eexists; split; reflexivity.
Defined.

(** ** The store manager: recording, resets and startup *)

(** A reader that takes the shared hold, writes the live store object and
    releases the hold leaves everything else as it was. *)
Lemma read_access_frame svc (s : TelemetryStore) :
  wellFormed svc ->
  let ptr := fst (fst (getTelemetryStoreForRead svc)) in
  let g := snd (fst (getTelemetryStoreForRead svc)) in
  let svc' := releaseRead g (writeStore ptr s (snd (getTelemetryStoreForRead svc))) in
  livePointer svc' = livePointer svc
  /\ outstandingHolds svc' = outstandingHolds svc
  /\ List.length (storeObjects svc') = List.length (storeObjects svc)
  /\ telemetryRateLimiter svc' = telemetryRateLimiter svc
  /\ liveStore svc' = s
  /\ (forall p, p <> livePointer svc -> deref svc' p = deref svc p)
  /\ wellFormed svc'.
Proof.
  intros Hwf ptr g svc'.
  pose proof (releaseRead_getTelemetryStoreForRead Hwf) as [Hptr Hholds].
  destruct Hwf as [Hp Hh].
  assert (Hobjs : storeObjects svc' = replaceNth (livePointer svc) s (storeObjects svc))
    by reflexivity.
  assert (Hptr' : livePointer svc' = livePointer svc) by exact Hptr.
  assert (Hholds' : outstandingHolds svc' = outstandingHolds svc) by exact Hholds.
  assert (Hnext : nextGuard (_instanceMutex (telemetryStoreDecoration svc'))
                  = S (nextGuard (_instanceMutex (telemetryStoreDecoration svc))))
    by reflexivity.
  split; [exact Hptr'|]. split; [exact Hholds'|].
  split; [now rewrite Hobjs, replaceNth_length|].
  split; [reflexivity|]. split; [|split].
  - unfold liveStore, deref. fold (livePointer svc'). rewrite Hptr', Hobjs.
    now apply nth_replaceNth_same.
  - intros p Hne. unfold deref. rewrite Hobjs.
    apply nth_replaceNth_other. congruence.
  - split.
    + fold (livePointer svc'). rewrite Hptr', Hobjs, replaceNth_length. exact Hp.
    + fold (outstandingHolds svc') (livePointer svc'). rewrite Hholds', Hptr', Hnext.
      intros g' p' Hin. destruct (Hh _ _ Hin) as [Hq Hlt]. split; [exact Hq|lia].
Qed.

Lemma collectTelemetry_frame {P : Platform} key d isExec svc :
  wellFormed svc ->
  let svc' := snd (collectTelemetry key d isExec svc) in
  livePointer svc' = livePointer svc
  /\ outstandingHolds svc' = outstandingHolds svc
  /\ List.length (storeObjects svc') = List.length (storeObjects svc)
  /\ telemetryRateLimiter svc' = telemetryRateLimiter svc
  /\ (forall p, p <> livePointer svc -> deref svc' p = deref svc p)
  /\ wellFormed svc'.
Proof.
  intros Hwf svc'.
  assert (Hshape : exists s,
             svc' = releaseRead (snd (fst (getTelemetryStoreForRead svc)))
                      (writeStore (fst (fst (getTelemetryStoreForRead svc))) s
                                  (snd (getTelemetryStoreForRead svc)))).
  { unfold svc', collectTelemetry, getTelemetryStoreForRead, getTelemetryStore.
    cbn [fst snd].
    destruct (findOrCreateMetrics _ _) as [found partition]. cbn [snd].
    eexists. reflexivity. }
  destruct Hshape as [s ->].
  destruct (read_access_frame s Hwf) as (H1 & H2 & H3 & H4 & _ & H6 & H7).
  auto 10.
Qed.

(** X6.  [collectTelemetry] gives back what it takes: whether it records or
    trips the assertion, afterwards the live pointer, the shared holds of
    other readers, the number of allocated stores and the rate limiter are
    as before, no store object other than the live one has changed, and the
    manager is again in a consistent state. *)
Theorem collectTelemetry_touches_only_the_live_store (P : Platform)
    (key : BSONObj) (d : OpDebug) (isExec : bool) (svc : ServiceContext) :
  wellFormed svc ->
  livePointer (snd (collectTelemetry key d isExec svc)) = livePointer svc
  /\ outstandingHolds (snd (collectTelemetry key d isExec svc)) = outstandingHolds svc
  /\ List.length (storeObjects (snd (collectTelemetry key d isExec svc)))
     = List.length (storeObjects svc)
  /\ telemetryRateLimiter (snd (collectTelemetry key d isExec svc))
     = telemetryRateLimiter svc
  /\ (forall p, p <> livePointer svc ->
                deref (snd (collectTelemetry key d isExec svc)) p = deref svc p)
  /\ wellFormed (snd (collectTelemetry key d isExec svc)).
Proof. intros Hwf. exact (collectTelemetry_frame key d isExec Hwf). Qed.

Lemma sampleServiceWithReader_wellFormed : wellFormed sampleServiceWithReader.
Proof.
  split; [vm_compute; lia|].
  intros g p [H|[]]; inversion H; subst. split; [reflexivity|vm_compute; lia].
Qed.

Lemma collectTelemetry_touches_only_the_live_store_witness :
  outstandingHolds
    (snd (collectTelemetry (P := samplePlatform) sampleMatchKey sampleOpDebug true
            sampleServiceWithReader))
  = [(0%nat, 0%nat)].
Proof.
  apply (proj1 (proj2 (@collectTelemetry_touches_only_the_live_store samplePlatform
                         sampleMatchKey sampleOpDebug true sampleServiceWithReader
                         sampleServiceWithReader_wellFormed))).
Defined.




Lemma nth_repeat_lt {A : Type} (a d : A) (n i : nat) :
  (i < n)%nat -> nth i (repeat a n) d = a.
Proof.
  revert i; induction n as [|n IH]; intros [|i] H; simpl; try lia; auto.
  apply IH. lia.
Qed.

Lemma makeTelemetryStore_lookup {P : Platform} key cacheSize n :
  storeLookup key (makeTelemetryStore cacheSize n) = None.
Proof.
  unfold storeLookup, getPartition, makeTelemetryStore; cbn [partitions].
  set (i := partitionOf key _). clearbody i.
  set (p := {| budget := _; entries := [] |}).
  assert (Hp : entries p = []) by reflexivity. clearbody p.
  revert i; induction n as [|n IH]; intros [|i]; simpl; auto.
  now rewrite Hp.
Qed.

Lemma makeTelemetryStore_budget {P : Platform} key cacheSize n :
  (0 < n)%nat ->
  budget (getPartition (partitionOf key (makeTelemetryStore cacheSize n))
                       (makeTelemetryStore cacheSize n))
  = (cacheSize / N.of_nat n)%N.
Proof.
  intros Hn. unfold getPartition, partitionOf, numPartitions, makeTelemetryStore.
  cbn [partitions]. rewrite repeat_length.
  rewrite nth_repeat_lt; [reflexivity|]. apply Nat.mod_upper_bound. lia.
Qed.

Lemma resetTelemetryStore_result svc old svc1 :
  resetTelemetryStore svc = Some (old, svc1) ->
  old = livePointer svc
  /\ livePointer svc1 = List.length (storeObjects svc)
  /\ storeObjects svc1
     = storeObjects svc
       ++ [makeTelemetryStore (size (liveStore svc)) (numPartitions (liveStore svc))]
  /\ liveStore svc1
     = makeTelemetryStore (size (liveStore svc)) (numPartitions (liveStore svc)).
Proof.
  unfold resetTelemetryStore. destruct (sharedHolds _); [|discriminate].
  intros H; inversion H; subst; clear H.
  repeat split. unfold liveStore at 1, deref at 1. cbn.
  rewrite app_nth2, Nat.sub_diag; [reflexivity|lia].
Qed.

Lemma resetTelemetryStore_wellFormed svc old svc1 :
  wellFormed svc -> resetTelemetryStore svc = Some (old, svc1) -> wellFormed svc1.
Proof.
  intros [Hp Hh]. unfold resetTelemetryStore.
  destruct (sharedHolds _) eqn:Hs; [|discriminate].
  intros H; inversion H; subst; clear H. split.
  - cbn. rewrite length_app. simpl. lia.
  - cbn. rewrite Hs. intros g p [].
Qed.

(** X15.  [resetTelemetryStore] does not proceed while a shared hold is
    outstanding.  When none is, it allocates a new store, empty and of the
    byte budget and partition count of the live one, makes it the live store
    and returns the address of the previous one, whose contents it leaves as
    they were. *)
Theorem reset_waits_for_holds_then_swaps (svc : ServiceContext) :
  wellFormed svc ->
  (outstandingHolds svc <> [] -> resetTelemetryStore svc = None)
  /\ (outstandingHolds svc = [] ->
      exists svc',
        resetTelemetryStore svc = Some (livePointer svc, svc')
        /\ livePointer svc' = List.length (storeObjects svc)
        /\ livePointer svc' <> livePointer svc
        /\ deref svc' (livePointer svc) = liveStore svc
        /\ liveStore svc'
           = makeTelemetryStore (size (liveStore svc)) (numPartitions (liveStore svc))
        /\ size (liveStore svc') = size (liveStore svc)
        /\ numPartitions (liveStore svc') = numPartitions (liveStore svc)
        /\ storeIsEmpty (liveStore svc')
        /\ wellFormed svc').
Proof.
  intros Hwf. split.
  - unfold outstandingHolds, resetTelemetryStore. now destruct (sharedHolds _).
  - intros Hnone.
    destruct (resetTelemetryStore svc) as [[old svc']|] eqn:Hreset.
    + destruct (resetTelemetryStore_result _ Hreset) as (-> & Hnew & Hobjs & Hlive).
      pose proof (resetTelemetryStore_wellFormed Hwf Hreset) as Hwf'.
      destruct Hwf as [Hp _]. fold (livePointer svc) in Hp.
      destruct (makeTelemetryStore_shape (size (liveStore svc))
                  (numPartitions (liveStore svc))) as (Hsz & Hnp & Hem).
      exists svc'. rewrite Hlive, Hnew.
      split; [reflexivity|]. split; [reflexivity|]. split; [lia|].
      split; [unfold deref at 1; rewrite Hobjs; now apply app_nth1|].
      split; [reflexivity|]. split; [exact Hsz|]. split; [exact Hnp|].
      split; [exact Hem | exact Hwf'].
    + unfold outstandingHolds in Hnone. unfold resetTelemetryStore in Hreset.
      rewrite Hnone in Hreset. discriminate.
Qed.

(** With a reader holding the reset waits; without one it hands back
    store 0. *)
Lemma reset_waits_for_holds_then_swaps_witness :
  resetTelemetryStore sampleServiceWithReader = None
  /\ exists svc',
      resetTelemetryStore (sampleService 100000 4 5) = Some (0%nat, svc')
      /\ livePointer svc' = 1%nat.
Proof.
  split.
  - apply (proj1 (@reset_waits_for_holds_then_swaps sampleServiceWithReader
                    sampleServiceWithReader_wellFormed)).
    discriminate.
  - destruct (proj2 (@reset_waits_for_holds_then_swaps (sampleService 100000 4 5)
                       ltac:(split; [vm_compute; lia | intros g p []]))
                    eq_refl) as (svc' & Hr & Hp & _).
    exists svc'. split; [exact Hr | exact Hp].
Defined.

(** X8.  After a reset, recordings go to the new store only.  The store
    that [resetTelemetryStore] handed back keeps exactly the contents it had
    when it was live, whatever is recorded afterwards; the new live store
    knows no key, so a recording starts from fresh metrics, provided one
    entry fits a partition of the old byte budget. *)
Theorem recording_after_reset_spares_the_old_store (P : Platform)
    (key : BSONObj) (d : OpDebug) (isExec : bool)
    (svc svc1 : ServiceContext) (old : nat) :
  wellFormed svc ->
  resetTelemetryStore svc = Some (old, svc1) ->
  deref (snd (collectTelemetry key d isExec svc1)) old = liveStore svc
  /\ livePointer (snd (collectTelemetry key d isExec svc1)) <> old
  /\ storeLookup key (liveStore svc1) = None
  /\ ((0 < numPartitions (liveStore svc))%nat ->
      (entrySize key
       <= size (liveStore svc) / N.of_nat (numPartitions (liveStore svc)))%N ->
      fst (collectTelemetry key d isExec svc1) = Ok tt
      /\ storeLookup key (liveStore (snd (collectTelemetry key d isExec svc1)))
         = Some (updateMetrics d isExec newTelemetryMetrics)).
Proof.
  intros Hwf Hreset.
  pose proof (resetTelemetryStore_wellFormed Hwf Hreset) as Hwf1.
  destruct (resetTelemetryStore_result _ Hreset) as (-> & Hnew & Hobjs & Hlive).
  destruct (collectTelemetry_frame key d isExec Hwf1) as (Hp & _ & _ & _ & Hother & _).
  destruct Hwf as [Hlt _].
  fold (livePointer svc) in Hlt.
  assert (Hne : livePointer svc <> livePointer svc1) by lia.
  split; [|split; [|split]].
  - rewrite (Hother _ Hne). unfold deref, liveStore, deref.
    fold (livePointer svc). rewrite Hobjs. now apply app_nth1.
  - rewrite Hp. congruence.
  - rewrite Hlive. apply makeTelemetryStore_lookup.
  - intros Hn Hfit.
    assert (Hpos : (0 < numPartitions (liveStore svc1))%nat).
    { rewrite Hlive. now rewrite (proj1 (proj2 (makeTelemetryStore_shape _ _))). }
    pose proof (collectTelemetry_spec key d isExec svc1 Hpos) as (_ & _ & Hs).
    cbv zeta in Hs. unfold keyPartition in Hs. rewrite Hlive in Hs.
    rewrite makeTelemetryStore_lookup, (makeTelemetryStore_budget _ _ Hn) in Hs.
    apply N.leb_le in Hfit. rewrite Hfit in Hs. exact Hs.
Qed.

Lemma recording_after_reset_spares_the_old_store_witness :
  deref (snd (collectTelemetry (P := samplePlatform) sampleMatchKey sampleOpDebug
                true
                {| storeObjects :=
                     [makeTelemetryStore 100000 4; makeTelemetryStore 100000 4];
                   telemetryStoreDecoration :=
                     {| _telemetryStore := 1%nat;
                        _instanceMutex := {| nextGuard := 0%nat; sharedHolds := [] |} |};
                   telemetryRateLimiter := sampleLimiter 5 |}))
        0%nat
  = liveStore (sampleService 100000 4 5).
Proof.
  apply (@recording_after_reset_spares_the_old_store samplePlatform sampleMatchKey
           sampleOpDebug true (sampleService 100000 4 5) _ 0%nat).
  - split; [vm_compute; lia | intros g p []].
  - reflexivity.
Defined.


(** ** Sequences of observations *)

Lemma collectTelemetryAll_lookup {P : Platform} key obs : forall svc,
  canRecord key svc -> obs <> [] ->
  storeLookup key (liveStore (collectTelemetryAll key obs svc))
  = Some (updateMetricsAll obs (previousMetrics key svc)).
Proof.
  induction obs as [|o tl IH]; intros svc Hc Hne; [congruence|].
  destruct (collectTelemetry_canRecord (fst o) (snd o) Hc) as (_ & Hl & Hc').
  unfold collectTelemetryAll, updateMetricsAll in *. simpl.
  destruct tl as [|o' tl'].
  - exact Hl.
  - rewrite (IH _ Hc') by discriminate.
    unfold previousMetrics at 1. now rewrite Hl.
Qed.

Lemma updateMetrics_counts d e m :
  execCount (updateMetrics d e m) = execCount m + (if e then 1 else 0)
  /\ AggregatedMetric.count (queryOptMicros (updateMetrics d e m))
     = AggregatedMetric.count (queryOptMicros m) + (if e then 1 else 0)
  /\ AggregatedMetric.count (queryExecMicros (updateMetrics d e m))
     = AggregatedMetric.count (queryExecMicros m) + 1
  /\ AggregatedMetric.count (docsReturned (updateMetrics d e m))
     = AggregatedMetric.count (docsReturned m) + 1
  /\ AggregatedMetric.sum (docsReturned (updateMetrics d e m))
     = AggregatedMetric.sum (docsReturned m) + nreturned d
  /\ lastExecutionMicros (updateMetrics d e m) = executionTime d.
Proof. destruct e; cbn; repeat split; lia. Qed.

Lemma updateMetricsAll_counts obs : forall m,
  execCount (updateMetricsAll obs m) = execCount m + Z.of_nat (countExecuted obs)
  /\ AggregatedMetric.count (queryOptMicros (updateMetricsAll obs m))
     = AggregatedMetric.count (queryOptMicros m) + Z.of_nat (countExecuted obs)
  /\ AggregatedMetric.count (queryExecMicros (updateMetricsAll obs m))
     = AggregatedMetric.count (queryExecMicros m) + Z.of_nat (List.length obs)
  /\ AggregatedMetric.count (docsReturned (updateMetricsAll obs m))
     = AggregatedMetric.count (docsReturned m) + Z.of_nat (List.length obs)
  /\ AggregatedMetric.sum (docsReturned (updateMetricsAll obs m))
     = AggregatedMetric.sum (docsReturned m) + totalReturned obs.
Proof.
  unfold updateMetricsAll, countExecuted.
  induction obs as [|[d e] tl IH]; intros m; [simpl; repeat split; lia|].
  cbn [fold_left fst snd].
  destruct (IH (updateMetrics d e m)) as (H1 & H2 & H3 & H4 & H5).
  destruct (updateMetrics_counts d e m) as (U1 & U2 & U3 & U4 & U5 & _).
  rewrite H1, H2, H3, H4, H5, U1, U2, U3, U4, U5.
  unfold totalReturned. cbn [filter snd fold_right fst List.length].
  destruct e; cbn [List.length]; repeat split; lia.
Qed.

Lemma updateMetricsAll_last obs : forall m d0,
  obs <> [] ->
  lastExecutionMicros (updateMetricsAll obs m)
  = executionTime (fst (last obs d0)).
Proof.
  unfold updateMetricsAll.
  induction obs as [|[d e] tl IH]; intros m d0 Hne; [congruence|].
  destruct tl as [|o tl'].
  - exact (proj2 (proj2 (proj2 (proj2 (proj2 (updateMetrics_counts d e m)))))).
  - cbn [fold_left fst snd] in *.
    rewrite (IH (updateMetrics d e m) d0) by discriminate. reflexivity.
Qed.

(** X10.  Observations of different kinds recorded one after the other
    under a key that can be recorded: the execution count and the planning
    aggregator grow by the number of executed observations only, the other
    aggregators by the number of all observations, the documents returned
    add up, and the last execution latency is that of the last observation,
    executed or not. *)
Theorem mixed_observations_are_counted_by_kind (P : Platform) (key : BSONObj)
    (obs : list (OpDebug * bool)) (d0 : OpDebug * bool) (svc : ServiceContext) :
  canRecord key svc -> obs <> [] ->
  exists m,
    storeLookup key (liveStore (collectTelemetryAll key obs svc)) = Some m
    /\ execCount m
       = execCount (previousMetrics key svc) + Z.of_nat (countExecuted obs)
    /\ AggregatedMetric.count (queryOptMicros m)
       = AggregatedMetric.count (queryOptMicros (previousMetrics key svc))
         + Z.of_nat (countExecuted obs)
    /\ AggregatedMetric.count (queryExecMicros m)
       = AggregatedMetric.count (queryExecMicros (previousMetrics key svc))
         + Z.of_nat (List.length obs)
    /\ AggregatedMetric.count (docsReturned m)
       = AggregatedMetric.count (docsReturned (previousMetrics key svc))
         + Z.of_nat (List.length obs)
    /\ AggregatedMetric.sum (docsReturned m)
       = AggregatedMetric.sum (docsReturned (previousMetrics key svc))
         + totalReturned obs
    /\ lastExecutionMicros m = executionTime (fst (last obs d0)).
Proof.
  intros Hc Hne. eexists. split; [apply (collectTelemetryAll_lookup Hc Hne)|].
  destruct (updateMetricsAll_counts obs (previousMetrics key svc))
    as (H1 & H2 & H3 & H4 & H5).
  repeat split; try assumption. now apply updateMetricsAll_last.
Qed.

Lemma mixed_observations_are_counted_by_kind_witness :
  exists m,
    storeLookup (P := samplePlatform) sampleMatchKey
      (liveStore (collectTelemetryAll (P := samplePlatform) sampleMatchKey
                    [(sampleOpDebug, false); (sampleOpDebug, true);
                     (sampleOpDebug, false)]
                    (sampleService 100000 4 5))) = Some m
    /\ execCount m = 1
    /\ AggregatedMetric.count (docsReturned m) = 3.
Proof.
  destruct (@mixed_observations_are_counted_by_kind samplePlatform sampleMatchKey
              [(sampleOpDebug, false); (sampleOpDebug, true); (sampleOpDebug, false)]
              (sampleOpDebug, false) (sampleService 100000 4 5)
              ltac:(split; [vm_compute; lia | right; vm_compute; discriminate])
              ltac:(discriminate))
    as (m & Hl & He & _ & _ & Hd & _).
  exists m. split; [exact Hl|]. split; [exact He | exact Hd].
Defined.

(** ** Cells of a columnar index *)

Lemma nth_error_replaceNth_same {A : Type} (i : nat) (x : A) (l : list A) :
  (i < List.length l)%nat -> nth_error (replaceNth i x l) i = Some x.
Proof.
  revert i; induction l as [|y l IH]; intros [|i] H; simpl in *; try lia; auto.
  apply IH; lia.
Qed.

Lemma nth_error_replaceNth_other {A : Type} (i j : nat) (x : A) (l : list A) :
  i <> j -> nth_error (replaceNth i x l) j = nth_error l j.
Proof.
  revert i j; induction l as [|y l IH]; intros [|i] [|j] H; simpl;
    try reflexivity; try congruence.
  apply IH; congruence.
Qed.

Lemma skipn_replaceNth {A : Type} (i j : nat) (x : A) (l : list A) :
  (i < j)%nat -> skipn j (replaceNth i x l) = skipn j l.
Proof.
  revert i j; induction l as [|y l IH]; intros [|i] [|j] H; simpl;
    try reflexivity; try lia.
  apply IH; lia.
Qed.

Lemma skipn_nth_error {A : Type} (i : nat) (x : A) (l : list A) :
  nth_error l i = Some x -> skipn i l = x :: skipn (S i) l.
Proof.
  revert i; induction l as [|y l IH]; intros [|i] H; simpl in *; try discriminate.
  - now inversion H.
  - now apply IH.
Qed.

Section ColumnarFacts.

Variable TypeTags : Type.
Variable Nothing : TypeTags.

Local Abbreviation Cell := (Columnar.TranslatedCell TypeTags).

Lemma nextValue_returns (cell : Cell) :
  Columnar.wellFormedCell cell -> Columnar.moreValues cell = true ->
  exists t v,
    nth_error (Columnar.types cell) (Columnar.idx cell) = Some t
    /\ nth_error (Columnar.vals cell) (Columnar.idx cell) = Some v
    /\ Columnar.nextValue Nothing cell
       = Columnar.Returned (t, v)
           {| Columnar.arrInfo := Columnar.arrInfo cell;
              Columnar.path := Columnar.path cell;
              Columnar.types :=
                replaceNth (Columnar.idx cell) Nothing (Columnar.types cell);
              Columnar.vals := replaceNth (Columnar.idx cell) 0%N (Columnar.vals cell);
              Columnar.idx := S (Columnar.idx cell) |}.
Proof.
  intros [Hlen _] Hmore. unfold Columnar.moreValues in Hmore.
  unfold Columnar.nextValue. rewrite Hmore. simpl.
  apply Nat.ltb_lt in Hmore.
  destruct (nth_error (Columnar.types cell) (Columnar.idx cell)) as [t|] eqn:Et.
  - destruct (nth_error (Columnar.vals cell) (Columnar.idx cell)) as [v|] eqn:Ev.
    + eauto.
    + apply nth_error_None in Ev. lia.
  - apply nth_error_None in Et. lia.
Qed.

(** X11.  [nextValue] on a cell without more values fails the invariant and
    returns nothing; on a cell with more values whose tag and value vectors
    have the same size it always returns.  The only other outcome is the read
    past the end of a tag vector that is shorter than the value vector, which
    the invariant does not exclude. *)
Theorem nextValue_outcomes (cell : Cell) :
  (Columnar.nextValue Nothing cell = Columnar.InvariantFailure _
   <-> Columnar.moreValues cell = false)
  /\ (Columnar.nextValue Nothing cell = Columnar.UncheckedRead _
      <-> (List.length (Columnar.types cell) <= Columnar.idx cell
           < List.length (Columnar.vals cell))%nat)
  /\ (Columnar.wellFormedCell cell -> Columnar.moreValues cell = true ->
      exists ret cell', Columnar.nextValue Nothing cell = Columnar.Returned ret cell').
Proof.
  split; [|split].
  - unfold Columnar.nextValue, Columnar.moreValues.
    destruct (Columnar.idx cell <? List.length (Columnar.vals cell))%nat eqn:E;
      simpl; [|tauto].
    split; [|discriminate].
    destruct (nth_error (Columnar.types cell) _);
      [destruct (nth_error (Columnar.vals cell) _)|]; discriminate.
  - unfold Columnar.nextValue.
    destruct (Columnar.idx cell <? List.length (Columnar.vals cell))%nat eqn:E; simpl.
    + apply Nat.ltb_lt in E.
      destruct (nth_error (Columnar.types cell) (Columnar.idx cell)) as [t|] eqn:Et.
      * assert (Columnar.idx cell < List.length (Columnar.types cell))%nat
          by (apply nth_error_Some; congruence).
        destruct (nth_error (Columnar.vals cell) (Columnar.idx cell)) as [v|] eqn:Ev.
        -- split; [discriminate|lia].
        -- apply nth_error_None in Ev. lia.
      * apply nth_error_None in Et. split; [lia|reflexivity].
    + apply Nat.ltb_ge in E. split; [discriminate|lia].
  - intros Hwf Hmore.
    destruct (nextValue_returns Hwf Hmore) as (t & v & _ & _ & H). eauto.
Qed.

(** X12.  A call of [nextValue] that returns gives the tag and the value at
    the current index, then clears that slot (tag [Nothing], value 0) and
    moves the index on by one.  The other slots, the sizes of both vectors,
    the path and the array info are unchanged, and the cell stays well
    formed: a value is handed out once and never again. *)
Theorem nextValue_hands_out_and_clears (cell cell' : Cell) (ret : TypeTags * N) :
  Columnar.nextValue Nothing cell = Columnar.Returned ret cell' ->
  nth_error (Columnar.types cell) (Columnar.idx cell) = Some (fst ret)
  /\ nth_error (Columnar.vals cell) (Columnar.idx cell) = Some (snd ret)
  /\ Columnar.idx cell' = S (Columnar.idx cell)
  /\ nth_error (Columnar.types cell') (Columnar.idx cell) = Some Nothing
  /\ nth_error (Columnar.vals cell') (Columnar.idx cell) = Some 0%N
  /\ (forall j, j <> Columnar.idx cell ->
        nth_error (Columnar.types cell') j = nth_error (Columnar.types cell) j
        /\ nth_error (Columnar.vals cell') j = nth_error (Columnar.vals cell) j)
  /\ List.length (Columnar.types cell') = List.length (Columnar.types cell)
  /\ List.length (Columnar.vals cell') = List.length (Columnar.vals cell)
  /\ Columnar.path cell' = Columnar.path cell
  /\ Columnar.arrInfo cell' = Columnar.arrInfo cell
  /\ (Columnar.wellFormedCell cell -> Columnar.wellFormedCell cell').
Proof.
  unfold Columnar.nextValue.
  destruct (Columnar.idx cell <? List.length (Columnar.vals cell))%nat eqn:E;
    simpl; [|discriminate].
  apply Nat.ltb_lt in E.
  destruct (nth_error (Columnar.types cell) (Columnar.idx cell)) as [t|] eqn:Et;
    [|discriminate].
  destruct (nth_error (Columnar.vals cell) (Columnar.idx cell)) as [v|] eqn:Ev;
    [|discriminate].
  intros H; inversion H; subst; clear H. cbn.
  assert (Ht : (Columnar.idx cell < List.length (Columnar.types cell))%nat)
    by (apply nth_error_Some; congruence).
  repeat split; auto using nth_error_replaceNth_same, replaceNth_length.
  - now apply nth_error_replaceNth_other.
  - now apply nth_error_replaceNth_other.
  - cbn. rewrite !replaceNth_length. now destruct H.
  - cbn. rewrite replaceNth_length. lia.
Qed.

Lemma remaining_step (cell : Cell) t v :
  nth_error (Columnar.types cell) (Columnar.idx cell) = Some t ->
  nth_error (Columnar.vals cell) (Columnar.idx cell) = Some v ->
  Columnar.remaining cell
  = (t, v)
    :: Columnar.remaining
         {| Columnar.arrInfo := Columnar.arrInfo cell;
            Columnar.path := Columnar.path cell;
            Columnar.types :=
              replaceNth (Columnar.idx cell) Nothing (Columnar.types cell);
            Columnar.vals := replaceNth (Columnar.idx cell) 0%N (Columnar.vals cell);
            Columnar.idx := S (Columnar.idx cell) |}.
Proof.
  intros Ht Hv. unfold Columnar.remaining.
  cbn [Columnar.types Columnar.vals Columnar.idx].
  rewrite (skipn_nth_error _ _ Ht), (skipn_nth_error _ _ Hv).
  rewrite !skipn_replaceNth by lia. reflexivity.
Qed.

Lemma readAll_drains (fuel : nat) : forall cell : Cell,
  Columnar.wellFormedCell cell ->
  (List.length (Columnar.vals cell) - Columnar.idx cell <= fuel)%nat ->
  exists final,
    Columnar.readAll Nothing fuel cell = Some (Columnar.remaining cell, final)
    /\ Columnar.idx final = List.length (Columnar.vals cell)
    /\ List.length (Columnar.vals final) = List.length (Columnar.vals cell)
    /\ List.length (Columnar.types final) = List.length (Columnar.types cell)
    /\ (forall j, (j < Columnar.idx cell)%nat ->
          nth_error (Columnar.types final) j = nth_error (Columnar.types cell) j
          /\ nth_error (Columnar.vals final) j = nth_error (Columnar.vals cell) j)
    /\ (forall j, (Columnar.idx cell <= j < List.length (Columnar.vals cell))%nat ->
          nth_error (Columnar.types final) j = Some Nothing
          /\ nth_error (Columnar.vals final) j = Some 0%N).
Proof.
  assert (Hdone : forall cell : Cell,
    Columnar.wellFormedCell cell -> Columnar.moreValues cell = false ->
    Columnar.remaining cell = []
    /\ Columnar.idx cell = List.length (Columnar.vals cell)).
  { intros cell [Hlen Hle] Hno. unfold Columnar.moreValues in Hno.
    apply Nat.ltb_ge in Hno.
    assert (Heq : Columnar.idx cell = List.length (Columnar.vals cell)) by lia.
    split; [|exact Heq]. unfold Columnar.remaining.
    rewrite (skipn_all2 (Columnar.vals cell)) by lia.
    now destruct (skipn _ (Columnar.types cell)). }
  induction fuel as [|fuel IH]; intros cell Hwf Hfuel.
  - assert (Hno : Columnar.moreValues cell = false)
      by (unfold Columnar.moreValues; apply Nat.ltb_ge; lia).
    destruct (Hdone cell Hwf Hno) as [Hrem Hidx].
    exists cell. simpl. rewrite Hrem. repeat split; auto; lia.
  - simpl. destruct (Columnar.moreValues cell) eqn:Hmore.
    + destruct (nextValue_returns Hwf Hmore) as (t & v & Ht & Hv & Hnext).
      rewrite Hnext.
      set (cell' := {| Columnar.arrInfo := Columnar.arrInfo cell;
                       Columnar.path := Columnar.path cell;
                       Columnar.types := replaceNth (Columnar.idx cell) Nothing
                                           (Columnar.types cell);
                       Columnar.vals := replaceNth (Columnar.idx cell) 0%N
                                          (Columnar.vals cell);
                       Columnar.idx := S (Columnar.idx cell) |}) in *.
      unfold Columnar.moreValues in Hmore. apply Nat.ltb_lt in Hmore.
      destruct Hwf as [Hlen Hle].
      assert (Hwf' : Columnar.wellFormedCell cell').
      { split; cbn; rewrite ?replaceNth_length; [exact Hlen|lia]. }
      assert (Hfuel' : (List.length (Columnar.vals cell') - Columnar.idx cell'
                        <= fuel)%nat)
        by (cbn; rewrite replaceNth_length; lia).
      destruct (IH cell' Hwf' Hfuel')
        as (final & Hread & Hidx & Hlv & Hlt & Hbefore & Hafter).
      exists final. rewrite Hread, (remaining_step cell Ht Hv).
      fold cell'.
      cbn [cell' Columnar.types Columnar.vals Columnar.idx]
        in Hidx, Hlv, Hlt, Hbefore, Hafter.
      rewrite replaceNth_length in Hidx. rewrite replaceNth_length in Hlv.
      rewrite replaceNth_length in Hlt.
      assert (Hafter' : forall j,
                 (S (Columnar.idx cell) <= j < List.length (Columnar.vals cell))%nat ->
                 nth_error (Columnar.types final) j = Some Nothing
                 /\ nth_error (Columnar.vals final) j = Some 0%N).
      { intros j Hj. apply Hafter. rewrite replaceNth_length. exact Hj. }
      split; [reflexivity|]. split; [exact Hidx|]. split; [exact Hlv|].
      split; [exact Hlt|]. split.
      * intros j Hj. destruct (Hbefore j ltac:(lia)) as [Hb1 Hb2].
        rewrite Hb1, Hb2. split; apply nth_error_replaceNth_other; lia.
      * intros j Hj. destruct (Nat.eq_dec j (Columnar.idx cell)) as [->|Hne].
        -- destruct (Hbefore (Columnar.idx cell) ltac:(lia)) as [Hb1 Hb2].
           rewrite Hb1, Hb2. split; apply nth_error_replaceNth_same; lia.
        -- apply Hafter'. lia.
    + destruct (Hdone cell Hwf Hmore) as [Hrem Hidx].
      exists cell. rewrite Hrem. repeat split; auto; lia.
Qed.

(** X13.  Reading a well-formed cell with [nextValue] for as long as
    [moreValues] holds never fails and yields exactly the tags and values
    from the current index to the end, in order.  Afterwards the cell has no
    more values, every slot that was read holds tag [Nothing] and value 0,
    and the slots before the starting index are untouched. *)
Theorem reading_a_cell_to_the_end (cell : Cell) (fuel : nat) :
  Columnar.wellFormedCell cell ->
  (List.length (Columnar.vals cell) - Columnar.idx cell <= fuel)%nat ->
  exists final,
    Columnar.readAll Nothing fuel cell = Some (Columnar.remaining cell, final)
    /\ Columnar.moreValues final = false
    /\ (forall j, (j < Columnar.idx cell)%nat ->
          nth_error (Columnar.types final) j = nth_error (Columnar.types cell) j
          /\ nth_error (Columnar.vals final) j = nth_error (Columnar.vals cell) j)
    /\ (forall j, (Columnar.idx cell <= j < List.length (Columnar.vals cell))%nat ->
          nth_error (Columnar.types final) j = Some Nothing
          /\ nth_error (Columnar.vals final) j = Some 0%N).
Proof.
  intros Hwf Hfuel.
  destruct (@readAll_drains fuel cell Hwf Hfuel)
    as (final & Hread & Hidx & Hlv & _ & Hbefore & Hafter).
  exists final. split; [exact Hread|]. split; [|split; assumption].
  unfold Columnar.moreValues. apply Nat.ltb_ge. lia.
Qed.

End ColumnarFacts.

Lemma nextValue_outcomes_witness :
  Columnar.wellFormedCell sampleCell
  /\ Columnar.moreValues sampleCell = true
  /\ exists ret cell',
      Columnar.nextValue TagNothing sampleCell = Columnar.Returned ret cell'.
Proof.
  assert (Hwf : Columnar.wellFormedCell sampleCell)
    by (split; [reflexivity | vm_compute; lia]).
  split; [exact Hwf | split; [reflexivity |]].
  exact (proj2 (proj2 (@nextValue_outcomes SampleTag TagNothing sampleCell))
           Hwf eq_refl).
Defined.

Lemma nextValue_hands_out_and_clears_witness :
  nth_error (Columnar.types sampleCell) 1 = Some TagText
  /\ nth_error (Columnar.vals sampleCell) 1 = Some 4096%N.
Proof.
  destruct (@nextValue_hands_out_and_clears SampleTag TagNothing sampleCell
              {| Columnar.arrInfo := ""; Columnar.path := "a.b";
                 Columnar.types := [TagNumber; TagNothing; TagNumber];
                 Columnar.vals := [7; 0; 9]%N; Columnar.idx := 2%nat |}
              (TagText, 4096%N) eq_refl) as (Ht & Hv & _).
  split; [exact Ht | exact Hv].
Defined.

Lemma reading_a_cell_to_the_end_witness :
  exists final,
    Columnar.readAll TagNothing 5 sampleCell
    = Some ([(TagText, 4096%N); (TagNumber, 9%N)], final)
    /\ Columnar.moreValues final = false.
Proof.
  destruct (@reading_a_cell_to_the_end SampleTag TagNothing sampleCell 5
              ltac:(split; [reflexivity | vm_compute; lia])
              ltac:(vm_compute; lia))
    as (final & Hread & Hmore & _).
  exists final. split; [exact Hread | exact Hmore].
Defined.

(** ** Severity of a health check *)

Lemma SFcompare_finite_antisym (m1 m2 : positive) (e1 e2 : Z) :
  SFcompare (S754_finite false m2 e2) (S754_finite false m1 e1)
  = option_map CompOpp (SFcompare (S754_finite false m1 e1) (S754_finite false m2 e2)).
Proof.
  cbn [SFcompare]. rewrite (Z.compare_antisym e1 e2).
  destruct (e1 ?= e2)%Z; cbn [option_map CompOpp]; try reflexivity.
  change (PosDef.Pos.compare_cont Eq m2 m1) with (Pos.compare m2 m1).
  change (PosDef.Pos.compare_cont Eq m1 m2) with (Pos.compare m1 m2).
  now rewrite (Pos.compare_antisym m1 m2).
Qed.

(** X14.  The three severity helpers split the doubles that are numbers
    into three classes: every severity other than NaN is exactly one of
    resolved (at most 0), transient (above 0 and below 1.0) and active (at
    least 1.0).  A NaN severity is none of the three.  A status constructed
    from a facet type alone is resolved and no active fault. *)
Theorem severity_is_in_exactly_one_class (severity : HealthCheckStatus.Severity) :
  (forall (FaultFacetType : Type) (type : FaultFacetType),
     HealthCheckStatus.isResolved
       (HealthCheckStatus.getSeverity (HealthCheckStatus.resolved type)) = true
     /\ HealthCheckStatus.isActiveFaultStatus (HealthCheckStatus.resolved type)
        = false)
  /\ (severity = S754_nan ->
      HealthCheckStatus.isResolved severity = false
      /\ HealthCheckStatus.isTransientFault severity = false
      /\ HealthCheckStatus.isActiveFault severity = false)
  /\ (severity <> S754_nan ->
      (HealthCheckStatus.isResolved severity = true
       /\ HealthCheckStatus.isTransientFault severity = false
       /\ HealthCheckStatus.isActiveFault severity = false)
      \/ (HealthCheckStatus.isResolved severity = false
          /\ HealthCheckStatus.isTransientFault severity = true
          /\ HealthCheckStatus.isActiveFault severity = false)
      \/ (HealthCheckStatus.isResolved severity = false
          /\ HealthCheckStatus.isTransientFault severity = false
          /\ HealthCheckStatus.isActiveFault severity = true)).
Proof.
  split; [intros F type; split; reflexivity|]. split.
  - intros ->. split; [reflexivity | split; reflexivity].
  - intros Hnan.
    destruct severity as [b | b | | sg m e].
    + left. split; [reflexivity | split; reflexivity].
    + destruct b; [left | right; right];
        (split; [reflexivity | split; reflexivity]).
    + exfalso. apply Hnan. reflexivity.
    + destruct sg; [left; split; [reflexivity | split; reflexivity]|]. right.
      unfold HealthCheckStatus.isResolved, HealthCheckStatus.isTransientFault,
        HealthCheckStatus.isActiveFault, HealthCheckStatus.kResolvedSeverity,
        HealthCheckStatus.kActiveFaultSeverity, SFleb, SFltb.
      rewrite (SFcompare_finite_antisym m 4503599627370496 e (-52)).
      change (SFcompare (S754_finite false m e) (S754_zero false)) with (Some Gt).
      change (SFcompare (S754_zero false) (S754_finite false m e)) with (Some Lt).
      destruct (SFcompare (S754_finite false m e)
                          (S754_finite false 4503599627370496 (-52)))
        as [[| |]|] eqn:E; cbn [option_map CompOpp andb].
      * right. split; [reflexivity | split; reflexivity].
      * left. split; [reflexivity | split; reflexivity].
      * right. split; [reflexivity | split; reflexivity].
      * cbn [SFcompare] in E. destruct (e ?= -52)%Z; discriminate.
Qed.

(** The double 0.5 is a transient fault. *)
Lemma severity_is_in_exactly_one_class_witness :
  HealthCheckStatus.isTransientFault (S754_finite false 4503599627370496 (-53)) = true.
Proof.
  destruct (proj2 (proj2 (severity_is_in_exactly_one_class
                            (S754_finite false 4503599627370496 (-53))))
                  ltac:(discriminate))
    as [(H & _) | [(_ & H & _) | (_ & H & _)]].
  - vm_compute in H. discriminate H.
  - exact H.
  - vm_compute in H. discriminate H.
Defined.
